(** * Reflection pipeline and snapshot handlers of [cot_reflection_app_v1.py]

    A shallow embedding of the application module: the question pipeline
    [process_question], the thinking-tag extraction it performs, and the
    snapshot handlers [load_snapshot_by_id], [update_snapshots_table] and
    [export_snapshot], together with a model of the snapshot store they
    talk to. *)

From Stdlib Require Import ZArith NArith Ascii String.
From stdpp Require Import base option list sorting gmap.

Local Open Scope N_scope.

(** ** Python values *)

(** A Python [str] is a sequence of Unicode code points. *)
Abbreviation pystr := (list N).

(** An ASCII literal of the source, as a [str]. *)
Definition py (s : string) : pystr :=
  N_of_ascii <$> list_ascii_of_string s.

(** [str.isspace] on one code point: the code points CPython classifies as
    whitespace. *)
Definition isspace (c : N) : bool :=
  ((9 <=? c) && (c <=? 13)) || ((28 <=? c) && (c <=? 32))
  || (c =? 133) || (c =? 160) || (c =? 5760)
  || ((8192 <=? c) && (c <=? 8202))
  || (c =? 8232) || (c =? 8233) || (c =? 8239) || (c =? 8287) || (c =? 12288).

Fixpoint lstrip (s : pystr) : pystr :=
  match s with
  | c :: s' => if isspace c then lstrip s' else s
  | [] => []
  end.

Definition rstrip (s : pystr) : pystr := reverse (lstrip (reverse s)).

(** [s.strip()] *)
Definition strip (s : pystr) : pystr := rstrip (lstrip s).

(** [sep.join(parts)] *)
Fixpoint join (sep : pystr) (parts : list pystr) : pystr :=
  match parts with
  | [] => []
  | [p] => p
  | p :: ps => p ++ sep ++ join sep ps
  end.

(** ** Thinking-tag extraction

    [re.search(r'<thinking>(.*?)</thinking>', thinking, re.DOTALL)]: the
    matcher tries every start position from the left; at a start position
    it consumes the opening literal, then lets the lazy [.*?] (any code
    point, newlines included) grow one code point at a time until the
    closing literal matches. *)

(** The literal [lit] at the head of [s]; the text after it. *)
Fixpoint match_literal (lit s : pystr) : option pystr :=
  match lit, s with
  | [], _ => Some s
  | a :: lit', b :: s' => if decide (a = b) then match_literal lit' s' else None
  | _ :: _, [] => None
  end.

(** [(.*?)lit] at the head of [s]: the captured group. *)
Fixpoint lazy_dotall_until (lit s : pystr) : option pystr :=
  match match_literal lit s with
  | Some _ => Some []
  | None =>
      match s with
      | [] => None
      | c :: s' => cons c <$> lazy_dotall_until lit s'
      end
  end.

(** [opn(.*?)cls] anchored at the head of [s]. *)
Definition match_here (opn cls s : pystr) : option pystr :=
  match match_literal opn s with
  | Some rest => lazy_dotall_until cls rest
  | None => None
  end.

(** [re.search]: group 1 of the leftmost match, [None] when there is none. *)
Fixpoint re_search (opn cls s : pystr) : option pystr :=
  match match_here opn cls s with
  | Some g => Some g
  | None =>
      match s with
      | [] => None
      | _ :: s' => re_search opn cls s'
      end
  end.

Definition thinking_open : pystr := py "<thinking>".
Definition thinking_close : pystr := py "</thinking>".

(** [thinking_match = re.search(r'<thinking>(.*?)</thinking>', thinking, re.DOTALL)] *)
Definition thinking_match (thinking : pystr) : option pystr :=
  re_search thinking_open thinking_close thinking.

(** [actual_thinking = thinking_match.group(1).strip() if thinking_match else thinking] *)
Definition actual_thinking (thinking : pystr) : pystr :=
  match thinking_match thinking with
  | Some g => strip g
  | None => thinking
  end.

(** The extraction as a pair: the content and whether a span was found. *)
Definition extract_thinking (thinking : pystr) : pystr * bool :=
  (actual_thinking thinking, bool_decide (is_Some (thinking_match thinking))).

(** The words of the extraction contract: a well-formed span splits the
    text, and the first one starts leftmost and, for that start, closes
    earliest. *)
Definition is_span (opn cls text pre inner post : pystr) : Prop :=
  text = pre ++ opn ++ inner ++ cls ++ post.

Definition first_span (opn cls text inner : pystr) : Prop :=
  ∃ pre post,
    is_span opn cls text pre inner post ∧
    ∀ pre' inner' post',
      is_span opn cls text pre' inner' post' →
      (length pre ≤ length pre')%nat ∧
      (length pre = length pre' → (length inner ≤ length inner')%nat).

(** The words "whitespace-trimmed": [content] is [s] without a leading and
    a trailing run of whitespace, and neither starts nor ends with one. *)
Definition trimmed_of (s content : pystr) : Prop :=
  ∃ l r,
    s = l ++ content ++ r ∧
    Forall (λ c, isspace c = true) l ∧
    Forall (λ c, isspace c = true) r ∧
    (∀ c, head content = Some c → isspace c = false) ∧
    (∀ c, last content = Some c → isspace c = false).

Definition scenario_response : pystr :=
  py "<thinking>because arithmetic</thinking> The answer is 4.".

(** ** Exceptions, effects and the outside world *)

(** An instance of [Exception], with the text [str(e)] yields. *)
Inductive exn : Type :=
  | ValueError (msg : pystr)
  | OtherException (msg : pystr).

Definition str_exn (e : exn) : pystr :=
  match e with
  | ValueError msg | OtherException msg => msg
  end.

Abbreviation bytes := (list Byte.byte).

(** What [process_question] does to the outside world, in order. *)
Inductive event : Type :=
  | EvPdfReader (file : bytes)
  | EvDocument (file : bytes)
  | EvModelResponse (model_name prompt : pystr)
  | EvCotReflection (system_prompt cot_prompt question : pystr)
      (document_content : option pystr) (model_name : pystr).

Definition is_backend_event (ev : event) : bool :=
  match ev with
  | EvModelResponse _ _ | EvCotReflection _ _ _ _ _ => true
  | _ => false
  end.

(** The names [process_question] imports: the model registry and the two
    model entry points of [cot_reflection_file], and the two document
    parsers.  A model answer may depend on everything that happened
    before it. *)
Class World : Type := {
  model_entry : Type;
  AVAILABLE_MODELS : gmap pystr model_entry;
  get_model_response : list event → pystr → pystr → exn + pystr;
  cot_reflection :
    list event → pystr → pystr → pystr → option pystr → pystr →
    exn + (pystr * pystr * pystr);
  (** [[page.extract_text() for page in PyPDF2.PdfReader(file_obj).pages]] *)
  PdfReader_pages : bytes → exn + list pystr;
  (** [[paragraph.text for paragraph in Document(file_obj).paragraphs]] *)
  Document_paragraphs : bytes → exn + list pystr
}.

(** Computations that may raise and that extend the history of events. *)
Definition M (A : Type) : Type := list event → (exn + A) * list event.

Definition ret {A} (a : A) : M A := λ h, (inr a, h).

Definition raise {A} (e : exn) : M A := λ h, (inl e, h).

Definition bind {A B} (c : M A) (k : A → M B) : M B :=
  λ h, match c h with
       | (inr a, h') => k a h'
       | (inl e, h') => (inl e, h')
       end.

(** [try: c  except: handler] *)
Definition try_except {A} (c : M A) (handler : exn → M A) : M A :=
  λ h, match c h with
       | (inr a, h') => (inr a, h')
       | (inl e, h') => handler e h'
       end.

(** An outside call: its answer is decided by the history so far, and the
    call is appended to the history. *)
Definition call {A} (ev : event) (answer : list event → exn + A) : M A :=
  λ h, (answer h, h ++ [ev]).

Declare Scope py_scope.
Delimit Scope py_scope with py_m.
Notation "x <- c ;; k" := (bind c (λ x, k))
  (at level 100, c at level 99, k at level 200, right associativity) : py_scope.
Notation "c ;;; k" := (bind c (λ _, k))
  (at level 100, k at level 200, right associativity) : py_scope.

(** ** [process_question] *)

(** The 7-tuple [process_question] returns, its components named after
    the interface components the submit button writes them to. *)
Record Outputs : Type := {
  user_prompt_output : pystr;
  initial_response_output : pystr;
  thinking_output : pystr;
  reflection_output : pystr;
  final_output : pystr;
  system_prompt_value : option pystr;
  cot_prompt_value : option pystr
}.

Definition nl : pystr := [10].

Definition invalid_model_error (selected_model : pystr) : exn :=
  ValueError (py "Invalid model selected: " ++ selected_model).

Definition document_error : exn :=
  ValueError
    (py "Error reading document. Please ensure it's a valid PDF or DOCX file.").

Section Pipeline.
Context `{W : World}.
Local Open Scope py_scope.

(** The inner [try]: PyPDF2 first, [docx] on any failure of it. *)
Definition read_pdf_or_docx (file : bytes) : M pystr :=
  try_except
    (pages <- call (EvPdfReader file) (λ _, PdfReader_pages file) ;;
     ret (join nl pages))
    (λ _,
      paragraphs <- call (EvDocument file) (λ _, Document_paragraphs file) ;;
      ret (join nl paragraphs)).

(** Lines 52-66: [document_content]. *)
Definition read_document_content (file : option bytes) : M (option pystr) :=
  match file with
  | None => ret None
  | Some f =>
      try_except
        (text <- read_pdf_or_docx f ;; ret (Some text))
        (λ _, raise document_error)
  end.

(** Line 69: [doc_content]; an empty text is falsy. *)
Definition doc_content_of (document_content : option pystr) : pystr :=
  match document_content with
  | Some (c :: text) => py "Document Content:" ++ nl ++ (c :: text) ++ nl ++ nl
  | _ => []
  end.

Definition initial_response_prompt
    (system_prompt doc_content user_prompt : pystr) : pystr :=
  system_prompt ++ nl ++ nl ++ doc_content
  ++ py "Question: " ++ user_prompt ++ nl ++ nl
  ++ py "Provide a concise answer to this question without any explanation or reasoning.".

Definition direct_response_prompt
    (system_prompt doc_content user_prompt : pystr) : pystr :=
  system_prompt ++ nl ++ nl ++ doc_content
  ++ py "Question: " ++ user_prompt ++ nl ++ nl
  ++ py "Analyze the question and provide a comprehensive answer.".

(** The body of the outer [try] (lines 47-103). *)
Definition process_question_body
    (file : option bytes)
    (user_prompt system_prompt cot_prompt selected_model : pystr)
    (use_default_cot : bool) : M Outputs :=
  (if decide (selected_model ∈ dom AVAILABLE_MODELS) then ret ()
   else raise (invalid_model_error selected_model)) ;;;
  document_content <- read_document_content file ;;
  let doc_content := doc_content_of document_content in
  if use_default_cot then
    initial_response <-
      call (EvModelResponse selected_model
              (initial_response_prompt system_prompt doc_content user_prompt))
           (λ h, get_model_response h selected_model
                   (initial_response_prompt system_prompt doc_content user_prompt)) ;;
    result <-
      call (EvCotReflection system_prompt cot_prompt user_prompt
              document_content selected_model)
           (λ h, cot_reflection h system_prompt cot_prompt user_prompt
                   document_content selected_model) ;;
    let '(thinking, reflection, output) := result in
    ret {| user_prompt_output := user_prompt;
           initial_response_output := initial_response;
           thinking_output := actual_thinking thinking;
           reflection_output := reflection;
           final_output := output;
           system_prompt_value := Some system_prompt;
           cot_prompt_value := Some cot_prompt |}
  else
    direct_response <-
      call (EvModelResponse selected_model
              (direct_response_prompt system_prompt doc_content user_prompt))
           (λ h, get_model_response h selected_model
                   (direct_response_prompt system_prompt doc_content user_prompt)) ;;
    ret {| user_prompt_output := user_prompt;
           initial_response_output := direct_response;
           thinking_output := [];
           reflection_output := [];
           final_output := [];
           system_prompt_value := Some system_prompt;
           cot_prompt_value := None |}.

(** Line 106: what the [except Exception as e] clause returns. *)
Definition error_outputs (user_prompt : pystr) (e : exn) : Outputs :=
  {| user_prompt_output := user_prompt;
     initial_response_output := py "An error occurred: " ++ str_exn e;
     thinking_output := [];
     reflection_output := [];
     final_output := [];
     system_prompt_value := None;
     cot_prompt_value := None |}.

Definition process_question
    (file : option bytes)
    (user_prompt system_prompt cot_prompt selected_model : pystr)
    (use_default_cot : bool) : M Outputs :=
  try_except
    (process_question_body file user_prompt system_prompt cot_prompt
       selected_model use_default_cot)
    (λ e, ret (error_outputs user_prompt e)).

(** The events a run adds to the history [h]. *)
Definition new_events {A} (c : M A) (h : list event) : list event :=
  drop (length h) (snd (c h)).
End Pipeline.

(** ** Snapshot records as Python values *)

Inductive pyval : Type :=
  | VNone
  | VInt (n : Z)
  | VStr (s : pystr).

(** A [dict] with [str] keys. *)
Abbreviation dict := (gmap pystr pyval).

(** [d.get(key, "")] *)
Definition dict_get (d : dict) (key : pystr) : pyval :=
  default (VStr []) (d !! key).

(** Truth value of an optional [dict]: [None] and [{}] are falsy. *)
Definition dict_truthy (d : option dict) : bool :=
  match d with
  | Some d => negb (bool_decide (size d = 0%nat))
  | None => false
  end.

Definition opt_str (s : option pystr) : pyval :=
  match s with
  | Some s => VStr s
  | None => VNone
  end.

(** ** The snapshot store *)

Module SnapshotDB.

(** The dictionary the save button passes to [db.save_snapshot]
    (lines 309-320); [cot_prompt] is absent after a direct run. *)
Record Fields : Type := {
  snapshot_name : pystr;
  user_prompt : pystr;
  system_prompt : pystr;
  model_name : pystr;
  cot_prompt : option pystr;
  initial_response : pystr;
  thinking : pystr;
  reflection : pystr;
  final_response : pystr;
  tags : pystr
}.

(** Modelled from the spec: the persisted snapshot of [db_utils], which
    is not part of the sources: the fields passed to save, plus the
    identifier and the creation time the store assigns. *)
Record Snapshot : Type := {
  id : Z;
  created_at : Z;
  fields : Fields
}.

(** Modelled from the spec: the state of [db_utils.SnapshotDB], a keyed
    collection of snapshots and the next identifier to hand out. *)
Record Store : Type := {
  next_id : Z;
  records : gmap Z Snapshot
}.

(** Modelled from the spec: a store at the start of its lifetime.
    Identifiers start at 1, the least the interface accepts. *)
Definition empty_store : Store := {| next_id := 1; records := ∅ |}.

(** Modelled from the spec: [SnapshotDB.save_snapshot], which assigns the
    next identifier and the creation time [now] read from the clock,
    persists every field and returns the new identifier. *)
Definition save_snapshot (st : Store) (record : Fields) (now : Z) : Store * Z :=
  let new_id := next_id st in
  ({| next_id := new_id + 1;
      records := <[new_id := {| id := new_id; created_at := now;
                                fields := record |}]> (records st) |},
   new_id).

(** Modelled from the spec: the point lookup [get_by_id] of [db_utils];
    [None] is [not_found]. *)
Definition get_by_id (st : Store) (snapshot_id : Z) : option Snapshot :=
  records st !! snapshot_id.

(** Modelled from the spec: [SnapshotDB.delete_snapshot], which removes
    the record if present and tells whether it did. *)
Definition delete_snapshot (st : Store) (snapshot_id : Z) : Store * bool :=
  match records st !! snapshot_id with
  | Some _ =>
      ({| next_id := next_id st;
          records := delete snapshot_id (records st) |}, true)
  | None => (st, false)
  end.

(** Modelled from the spec: [export] of [db_utils], the complete
    persisted record or [not_found]. *)
Definition export (st : Store) (snapshot_id : Z) : option Snapshot :=
  records st !! snapshot_id.

(** Modelled from the spec: the case folding behind "case-insensitive",
    which [db_utils] would fix; here the ASCII letters fold. *)
Definition lower_cp (c : N) : N :=
  if (65 <=? c) && (c <=? 90) then c + 32 else c.

Definition lower (s : pystr) : pystr := lower_cp <$> s.

(** [needle in hay] *)
Fixpoint contains (needle hay : pystr) : bool :=
  match match_literal needle hay with
  | Some _ => true
  | None =>
      match hay with
      | [] => false
      | _ :: hay' => contains needle hay'
      end
  end.

Definition contains_ci (term field : pystr) : bool :=
  contains (lower term) (lower field).

(** Modelled from the spec: the search predicate of [get_snapshots], a
    case-insensitive substring test on name, question and tags. *)
Definition matches (term : pystr) (s : Snapshot) : bool :=
  contains_ci term (snapshot_name (fields s))
  || contains_ci term (user_prompt (fields s))
  || contains_ci term (tags (fields s)).

(** Modelled from the spec: the order of [get_snapshots], creation time
    descending. *)
Definition newer_first (a b : Snapshot) : Prop :=
  (created_at b ≤ created_at a)%Z.

#[global] Instance newer_first_dec : RelDecision newer_first :=
  λ a b, Z_le_dec (created_at b) (created_at a).

Definition all_snapshots (st : Store) : list Snapshot :=
  (map_to_list (records st)).*2.

(** Modelled from the spec: the snapshots [get_snapshots] of [db_utils]
    selects for a search term, newest first. *)
Definition list_snapshots (st : Store) (search_term : pystr) : list Snapshot :=
  merge_sort newer_first
    (match search_term with
     | [] => all_snapshots st
     | _ => filter (λ s, matches search_term s = true) (all_snapshots st)
     end).

(** A summary row: id, name, created-at, model, question preview, tags. *)
Definition Row : Type := pyval * pyval * pyval * pyval * pyval * pyval.

(** Modelled from the spec: the summary [get_snapshots] returns for a
    snapshot; [preview] is its truncation of the question. *)
Definition summary (preview : pystr → pystr) (s : Snapshot) : Row :=
  (VInt (id s), VStr (snapshot_name (fields s)), VInt (created_at s),
   VStr (model_name (fields s)), VStr (preview (user_prompt (fields s))),
   VStr (tags (fields s))).

(** Modelled from the spec: [SnapshotDB.get_snapshots]. *)
Definition get_snapshots (preview : pystr → pystr) (st : Store)
    (search_term : pystr) : list Row :=
  summary preview <$> list_snapshots st search_term.

(** Modelled from the spec: the dictionary [SnapshotDB.get_snapshot_by_id]
    returns for a record, under the keys the handlers read and write. *)
Definition to_dict (s : Snapshot) : dict :=
  list_to_map
    [ (py "id", VInt (id s));
      (py "snapshot_name", VStr (snapshot_name (fields s)));
      (py "created_at", VInt (created_at s));
      (py "model_name", VStr (model_name (fields s)));
      (py "user_prompt", VStr (user_prompt (fields s)));
      (py "system_prompt", VStr (system_prompt (fields s)));
      (py "cot_prompt", opt_str (cot_prompt (fields s)));
      (py "initial_response", VStr (initial_response (fields s)));
      (py "thinking", VStr (thinking (fields s)));
      (py "reflection", VStr (reflection (fields s)));
      (py "final_response", VStr (final_response (fields s)));
      (py "tags", VStr (tags (fields s))) ].

(** Modelled from the spec: [SnapshotDB.get_snapshot_by_id] as the
    handlers call it; a lookup that misses is [None], not an error. *)
Definition get_snapshot_by_id (st : Store) (snapshot_id : Z) : exn + option dict :=
  inr (to_dict <$> get_by_id st snapshot_id).

(** The words of the search contract: the folded term occurs inside the
    folded field. *)
Definition ci_substring (term field : pystr) : Prop :=
  ∃ pre post, lower field = pre ++ lower term ++ post.

Definition matches_words (term : pystr) (s : Snapshot) : Prop :=
  ci_substring term (snapshot_name (fields s))
  ∨ ci_substring term (user_prompt (fields s))
  ∨ ci_substring term (tags (fields s)).

(** What every store of a lifetime satisfies: a record sits under its own
    identifier, below the next identifier to hand out. *)
Definition wf (st : Store) : Prop :=
  (1 ≤ next_id st)%Z ∧
  ∀ k s, records st !! k = Some s → id s = k ∧ (k < next_id st)%Z.

(** A store lifetime: saves and deletes in any order. *)
Inductive op : Type :=
  | Save (record : Fields) (now : Z)
  | Delete (snapshot_id : Z).

Inductive reply : Type :=
  | Saved (new_id : Z)
  | Deleted (deleted : bool).

Definition step (st : Store) (o : op) : Store * reply :=
  match o with
  | Save record now =>
      let '(st', new_id) := save_snapshot st record now in (st', Saved new_id)
  | Delete snapshot_id =>
      let '(st', deleted) := delete_snapshot st snapshot_id in
      (st', Deleted deleted)
  end.

Fixpoint run (st : Store) (ops : list op) : Store * list reply :=
  match ops with
  | [] => (st, [])
  | o :: ops' =>
      let '(st', r) := step st o in
      let '(st'', rs) := run st' ops' in
      (st'', r :: rs)
  end.

(** The identifiers the saves of a lifetime returned, in order. *)
Definition saved_ids (rs : list reply) : list Z :=
  omap (λ r, match r with Saved i => Some i | Deleted _ => None end) rs.

End SnapshotDB.

(** ** Snapshot handlers *)

(** The builtins the handlers call: [int] on a string ([None] when it
    raises [ValueError]) and [json.dumps(_, indent=2, ensure_ascii=False)]. *)
Class Builtins : Type := {
  int_of_str : pystr → option Z;
  json_dumps : dict → exn + pystr
}.

Definition none9 : list pyval := replicate 9 VNone.

Definition check_mark : pystr := [10003].

Section Handlers.
Context `{B : Builtins}.

(** The [db] object as a handler sees it. *)
Variable db_get_snapshot_by_id : Z → exn + option dict.

(** The body of the [try] of [load_snapshot_by_id] (lines 121-147). *)
Definition load_snapshot_by_id_body (snapshot_id : pystr) : exn + list pyval :=
  match snapshot_id with
  | [] => inr (none9 ++ [VStr (py "Please enter a snapshot ID to load")])
  | _ :: _ =>
      match int_of_str snapshot_id with
      | None =>
          inr (none9 ++
               [VStr (py "Invalid Snapshot ID. Please enter a numeric ID.")])
      | Some snapshot_id_int =>
          match db_get_snapshot_by_id snapshot_id_int with
          | inl e => inl e
          | inr snapshot_data =>
              if dict_truthy snapshot_data then
                let d := default ∅ snapshot_data in
                inr [ dict_get d (py "snapshot_name");
                      dict_get d (py "user_prompt");
                      dict_get d (py "system_prompt");
                      dict_get d (py "model_name");
                      dict_get d (py "cot_prompt");
                      dict_get d (py "initial_response");
                      dict_get d (py "thinking");
                      dict_get d (py "reflection");
                      dict_get d (py "final_response");
                      VStr (check_mark ++ py " Snapshot loaded successfully") ]
              else inr (none9 ++ [VStr (py "Snapshot not found")])
          end
      end
  end.

Definition load_snapshot_by_id (snapshot_id : pystr) : list pyval :=
  match load_snapshot_by_id_body snapshot_id with
  | inr r => r
  | inl e => none9 ++ [VStr (py "Error loading snapshot: " ++ str_exn e)]
  end.

(** The body of the [try] of [export_snapshot] (lines 170-183); the
    identifier is an [int], falsy when 0. *)
Definition export_snapshot_body (snapshot_id : Z) : exn + pystr :=
  if decide (snapshot_id = 0%Z) then
    inr (py "Please enter a snapshot ID to export")
  else
    match db_get_snapshot_by_id snapshot_id with
    | inl e => inl e
    | inr snapshot_data =>
        if dict_truthy snapshot_data then json_dumps (default ∅ snapshot_data)
        else inr (py "Snapshot not found")
    end.

Definition export_snapshot (snapshot_id : Z) : pystr :=
  match export_snapshot_body snapshot_id with
  | inr r => r
  | inl e => py "Error exporting snapshot: " ++ str_exn e
  end.
End Handlers.

(** [update_snapshots_table]: the rows of [db.get_snapshots], as lists. *)
Definition update_snapshots_table
    (db_get_snapshots : pystr → list SnapshotDB.Row) (search_term : pystr)
    : list (list pyval) :=
  (λ s : SnapshotDB.Row,
     let '(s0, s1, s2, s3, s4, s5) := s in [s0; s1; s2; s3; s4; s5])
  <$> db_get_snapshots search_term.

(** The delete button (line 333): [snapshot_id] is a number or [None]. *)
Definition delete_btn_click
    (preview : pystr → pystr) (st : SnapshotDB.Store) (snapshot_id : option Z)
    : SnapshotDB.Store * (bool + pystr * list (list pyval)) :=
  match snapshot_id with
  | Some n =>
      let '(st', deleted) := SnapshotDB.delete_snapshot st n in (st', inl deleted)
  | None =>
      (st, inr (py "Please enter a snapshot ID",
                update_snapshots_table (SnapshotDB.get_snapshots preview st) []))
  end.

(** The save button (lines 308-322): the new identifier and the
    refreshed table. *)
Definition save_btn_click
    (preview : pystr → pystr) (st : SnapshotDB.Store)
    (record : SnapshotDB.Fields) (now : Z)
    : SnapshotDB.Store * (Z * list (list pyval)) :=
  let '(st', new_id) := SnapshotDB.save_snapshot st record now in
  (st', (new_id, update_snapshots_table (SnapshotDB.get_snapshots preview st') [])).

(** ** Concrete worlds and inputs *)

Definition gemini : pystr := py "Gemini 2.0 Flash".
Definition question_2_plus_2 : pystr := py "What is 2+2?".
Definition demo_system_prompt : pystr := py "You are a careful assistant.".
Definition demo_cot_prompt : pystr := py "Think step by step: {question}".

Definition unreadable : exn := OtherException (py "file is not a zip file").

(** One registered model that answers every prompt; no document parses. *)
Definition demo_world : World := {|
  model_entry := unit;
  AVAILABLE_MODELS := {[ gemini := () ]};
  get_model_response := λ _ _ _, inr (py "4");
  cot_reflection := λ _ _ _ _ _ _,
    inr (scenario_response, py "The sum was checked.", py "The answer is 4.");
  PdfReader_pages := λ _, inl unreadable;
  Document_paragraphs := λ _, inl unreadable
|}.

Definition backend_down : exn := OtherException (py "503 Service Unavailable").

(** The same registry behind a backend that fails every call. *)
Definition failing_world : World := {|
  model_entry := unit;
  AVAILABLE_MODELS := {[ gemini := () ]};
  get_model_response := λ _ _ _, inl backend_down;
  cot_reflection := λ _ _ _ _ _ _, inl backend_down;
  PdfReader_pages := λ _, inr [py "page one"; py "page two"];
  Document_paragraphs := λ _, inl unreadable
|}.

(** A saved run of the question, and a second one tagged apart. *)
Definition demo_fields : SnapshotDB.Fields := {|
  SnapshotDB.snapshot_name := py "Sum";
  SnapshotDB.user_prompt := question_2_plus_2;
  SnapshotDB.system_prompt := demo_system_prompt;
  SnapshotDB.model_name := gemini;
  SnapshotDB.cot_prompt := None;
  SnapshotDB.initial_response := py "4";
  SnapshotDB.thinking := [];
  SnapshotDB.reflection := [];
  SnapshotDB.final_response := [];
  SnapshotDB.tags := py "math, Arithmetic"
|}.

Definition other_fields : SnapshotDB.Fields := {|
  SnapshotDB.snapshot_name := py "Capital";
  SnapshotDB.user_prompt := py "What is the capital of France?";
  SnapshotDB.system_prompt := demo_system_prompt;
  SnapshotDB.model_name := gemini;
  SnapshotDB.cot_prompt := Some demo_cot_prompt;
  SnapshotDB.initial_response := py "Paris";
  SnapshotDB.thinking := py "France is a country in Europe.";
  SnapshotDB.reflection := py "No doubt here.";
  SnapshotDB.final_response := py "Paris";
  SnapshotDB.tags := py "geography"
|}.

Definition demo_store : SnapshotDB.Store :=
  fst (SnapshotDB.run SnapshotDB.empty_store
         [SnapshotDB.Save demo_fields 100; SnapshotDB.Save other_fields 200]).

(** [int] restricted to plain ASCII digit strings. *)
Fixpoint decimal_digits (acc : Z) (s : pystr) : option Z :=
  match s with
  | [] => Some acc
  | c :: s' =>
      if (48 <=? c) && (c <=? 57)
      then decimal_digits (10 * acc + Z.of_N (c - 48)) s'
      else None
  end.

Definition demo_builtins : Builtins := {|
  int_of_str := λ s, match s with [] => None | _ => decimal_digits 0 s end;
  json_dumps := λ d, inr (py "{}")
|}.

(** ** Two statements of the specification about [process_question], as worded *)

Section Stated.
Context `{W : World}.

(** Every error raised inside the pipeline ends up, described, in the
    final answer, the other three texts being empty. *)
Definition error_in_final_answer
    (file : option bytes)
    (user_prompt system_prompt cot_prompt selected_model : pystr)
    (use_default_cot : bool) (h : list event) : Prop :=
  ∀ e h',
    process_question_body file user_prompt system_prompt cot_prompt
      selected_model use_default_cot h = (inl e, h') →
    ∃ out,
      process_question file user_prompt system_prompt cot_prompt
        selected_model use_default_cot h = (inr out, h') ∧
      final_output out ≠ [] ∧
      initial_response_output out = [] ∧
      thinking_output out = [] ∧
      reflection_output out = [].

(** A direct run on a registered model, a readable document and an
    answering backend makes one model call and returns that answer as
    the final answer. *)
Definition direct_answer_is_final
    (file : option bytes)
    (user_prompt system_prompt cot_prompt selected_model : pystr)
    (h : list event) : Prop :=
  ∀ document_content hd response,
    selected_model ∈ dom AVAILABLE_MODELS →
    read_document_content file h = (inr document_content, hd) →
    get_model_response hd selected_model
      (direct_response_prompt system_prompt
         (doc_content_of document_content) user_prompt) = inr response →
    ∃ out h',
      process_question file user_prompt system_prompt cot_prompt
        selected_model false h = (inr out, h') ∧
      filter (λ ev, is_backend_event ev = true)
        (new_events (process_question file user_prompt system_prompt
                       cot_prompt selected_model false) h)
      = [EvModelResponse selected_model
           (direct_response_prompt system_prompt
              (doc_content_of document_content) user_prompt)] ∧
      thinking_output out = [] ∧
      reflection_output out = [] ∧
      final_output out = response ∧
      cot_prompt_value out = None.
End Stated.

(** ** The remaining handlers of the module *)

(** [get_available_models]: [list(AVAILABLE_MODELS.keys())]; the models
    are those of the registry, the order of a dictionary's keys is not
    modelled. *)
Definition get_available_models `{W : World} : list pystr :=
  elements (dom AVAILABLE_MODELS).

(** [gr.update(visible=..., value=...)] for the JSON panel. *)
Record Update (J : Type) : Type := {
  visible : bool;
  value : option J
}.
Arguments visible {J} _.
Arguments value {J} _.

(** [handle_export] (lines 351-369): the identifier is a number or [None],
    both [None] and 0 being falsy; [json_loads] is [json.loads], which
    raises on a text that is not JSON. *)
Definition handle_export {J : Type} `{B : Builtins}
    (json_loads : pystr → exn + J)
    (db_get_snapshot_by_id : Z → exn + option dict)
    (snapshot_id : option Z) : Update J * pystr :=
  match snapshot_id with
  | None => ({| visible := false; value := None |},
             py "Please enter a snapshot ID to export")
  | Some n =>
      if decide (n = 0%Z) then
        ({| visible := false; value := None |},
         py "Please enter a snapshot ID to export")
      else
        match json_loads (export_snapshot db_get_snapshot_by_id n) with
        | inr parsed_json =>
            ({| visible := true; value := Some parsed_json |},
             py "Export successful")
        | inl e =>
            ({| visible := false; value := None |},
             py "Export failed: " ++ str_exn e)
        end
  end.

(** The dictionary the save button builds from its ten arguments
    (lines 309-320). *)
Definition save_args_dict (a0 a1 a2 a3 a4 a5 a6 a7 a8 a9 : pyval) : dict :=
  list_to_map
    [ (py "snapshot_name", a0); (py "user_prompt", a1);
      (py "system_prompt", a2); (py "model_name", a3);
      (py "cot_prompt", a4); (py "initial_response", a5);
      (py "thinking", a6); (py "reflection", a7);
      (py "final_response", a8); (py "tags", a9) ].

Definition loaded_message : pystr :=
  check_mark ++ py " Snapshot loaded successfully".

(** The code point of [<]. *)
Definition lt_sign : N := 60.

(** [needle] occurs inside [s]. *)
Definition occurs_in (needle s : pystr) : Prop :=
  ∃ a b, s = a ++ needle ++ b.

(** ** More concrete worlds *)

Definition two_pages : list pystr := [py "page one"; py "page two"].

(** A readable PDF in front of an answering backend. *)
Definition pdf_world : World := {|
  model_entry := unit;
  AVAILABLE_MODELS := {[ gemini := () ]};
  get_model_response := λ _ _ _, inr (py "4");
  cot_reflection := λ _ _ _ _ _ _,
    inr (scenario_response, py "The sum was checked.", py "The answer is 4.");
  PdfReader_pages := λ _, inr two_pages;
  Document_paragraphs := λ _, inl unreadable
|}.

(** A file only the DOCX parser reads. *)
Definition docx_world : World := {|
  model_entry := unit;
  AVAILABLE_MODELS := {[ gemini := () ]};
  get_model_response := λ _ _ _, inr (py "4");
  cot_reflection := λ _ _ _ _ _ _,
    inr (scenario_response, py "The sum was checked.", py "The answer is 4.");
  PdfReader_pages := λ _, inl unreadable;
  Document_paragraphs := λ _, inr [py "first paragraph"]
|}.

(** A PDF without pages. *)
Definition blank_world : World := {|
  model_entry := unit;
  AVAILABLE_MODELS := {[ gemini := () ]};
  get_model_response := λ _ _ _, inr (py "4");
  cot_reflection := λ _ _ _ _ _ _,
    inr (scenario_response, py "The sum was checked.", py "The answer is 4.");
  PdfReader_pages := λ _, inr [];
  Document_paragraphs := λ _, inl unreadable
|}.

Definition some_file : bytes := [Byte.x25; Byte.x50; Byte.x44; Byte.x46].

(** A [json.loads] that accepts only the text [demo_builtins] dumps. *)
Definition demo_json_loads (text : pystr) : exn + unit :=
  if decide (text = py "{}") then inr ()
  else inl (OtherException (py "Expecting value: line 1 column 1 (char 0)")).

(** * Properties *)

(** ** The tag extractor *)

Lemma match_literal_Some (lit s rest : pystr) :
  match_literal lit s = Some rest ↔ s = lit ++ rest.
Proof.
  revert s. induction lit as [|a lit IH]; intros s; simpl.
  - split; [intros [= ->] | intros ->]; reflexivity.
  - destruct s as [|b s]; [split; discriminate|].
    destruct (decide (a = b)) as [->|Hne].
    + rewrite IH. split; [intros ->; reflexivity | intros [= ->]; reflexivity].
    + split; [discriminate | intros [= -> _]; contradiction].
Qed.

Lemma match_literal_app (lit rest : pystr) :
  match_literal lit (lit ++ rest) = Some rest.
Proof. apply match_literal_Some. reflexivity. Qed.

Lemma lazy_dotall_until_Some (lit s g : pystr) :
  lazy_dotall_until lit s = Some g →
  ∃ post, s = g ++ lit ++ post ∧
    ∀ g' post', s = g' ++ lit ++ post' → (length g ≤ length g')%nat.
Proof.
  revert g. induction s as [|c s IH]; intros g; simpl.
  - destruct (match_literal lit []) as [rest|] eqn:E; [|discriminate].
    intros [= <-]. apply match_literal_Some in E.
    exists rest. split; [exact E | intros; simpl; lia].
  - destruct (match_literal lit (c :: s)) as [rest|] eqn:E.
    + intros [= <-]. apply match_literal_Some in E.
      exists rest. split; [exact E | intros; simpl; lia].
    + destruct (lazy_dotall_until lit s) as [g0|] eqn:E0; [|discriminate].
      simpl. intros [= <-].
      destruct (IH g0 eq_refl) as (post & -> & Hmin).
      exists post. split; [reflexivity|].
      intros [|c' g'] post' Heq.
      * simpl in Heq. rewrite Heq, match_literal_app in E. discriminate.
      * simpl in Heq. injection Heq as _ Heq. simpl.
        specialize (Hmin _ _ Heq). lia.
Qed.

Lemma lazy_dotall_until_None (lit s : pystr) :
  lazy_dotall_until lit s = None → ∀ g post, s ≠ g ++ lit ++ post.
Proof.
  induction s as [|c s IH]; simpl.
  - destruct (match_literal lit []) eqn:E; [discriminate|].
    intros _ [|c g] post Heq; [|discriminate].
    simpl in Heq. rewrite Heq, match_literal_app in E. discriminate.
  - destruct (match_literal lit (c :: s)) eqn:E; [discriminate|].
    destruct (lazy_dotall_until lit s) eqn:E0; [discriminate|].
    intros _ [|c' g] post Heq.
    + simpl in Heq. rewrite Heq, match_literal_app in E. discriminate.
    + injection Heq as _ Heq. exact (IH eq_refl _ _ Heq).
Qed.

Lemma match_here_None (opn cls s : pystr) :
  match_here opn cls s = None →
  ∀ inner post, ¬ is_span opn cls s [] inner post.
Proof.
  unfold match_here, is_span. intros H inner post Heq. simpl in Heq.
  rewrite Heq, match_literal_app in H.
  exact (lazy_dotall_until_None _ _ H _ _ eq_refl).
Qed.

Lemma re_search_Some (opn cls s g : pystr) :
  re_search opn cls s = Some g → first_span opn cls s g.
Proof.
  induction s as [|c s IH]; simpl.
  - destruct (match_here opn cls []) as [g0|] eqn:E; [|discriminate].
    intros [= ->]. unfold match_here in E.
    destruct (match_literal opn []) as [rest|] eqn:E1; [|discriminate].
    apply match_literal_Some in E1.
    destruct (lazy_dotall_until_Some _ _ _ E) as (post & -> & Hmin).
    exists [], post. split; [exact E1|].
    intros pre' inner' post' Hs. split; [simpl; lia|].
    intros Hl. destruct pre'; [|discriminate].
    unfold is_span in Hs. simpl in Hs. rewrite E1 in Hs.
    apply app_inv_head in Hs. eauto.
  - destruct (match_here opn cls (c :: s)) as [g0|] eqn:E.
    + intros [= ->]. unfold match_here in E.
      destruct (match_literal opn (c :: s)) as [rest|] eqn:E1; [|discriminate].
      apply match_literal_Some in E1.
      destruct (lazy_dotall_until_Some _ _ _ E) as (post & -> & Hmin).
      exists [], post. split; [exact E1|].
      intros pre' inner' post' Hs. split; [simpl; lia|].
      intros Hl. destruct pre'; [|discriminate].
      unfold is_span in Hs. simpl in Hs. rewrite E1 in Hs.
      apply app_inv_head in Hs. eauto.
    + intros Hs. destruct (IH Hs) as (pre & post & Hspan & Hfirst).
      exists (c :: pre), post. split.
      * unfold is_span in *. simpl. by rewrite Hspan.
      * intros [|c' pre'] inner' post' Hs'.
        { exfalso. exact (match_here_None _ _ _ E _ _ Hs'). }
        unfold is_span in Hs'. simpl in Hs'. injection Hs' as _ Hs'.
        destruct (Hfirst _ _ _ Hs') as [Hle Hin]. simpl. split; [lia|].
        intros Hl. apply Hin. lia.
Qed.

Lemma re_search_None (opn cls s : pystr) :
  re_search opn cls s = None →
  ∀ pre inner post, ¬ is_span opn cls s pre inner post.
Proof.
  induction s as [|c s IH]; simpl.
  - destruct (match_here opn cls []) eqn:E; [discriminate|].
    intros _ [|c pre] inner post Hs.
    + exact (match_here_None _ _ _ E _ _ Hs).
    + discriminate.
  - destruct (match_here opn cls (c :: s)) eqn:E; [discriminate|].
    intros Hs [|c' pre] inner post Hspan.
    + exact (match_here_None _ _ _ E _ _ Hspan).
    + unfold is_span in Hspan. simpl in Hspan. injection Hspan as _ Hspan.
      exact (IH Hs _ _ _ Hspan).
Qed.

(** The first span of a text is unique. *)
Lemma first_span_unique (opn cls text inner1 inner2 : pystr) :
  first_span opn cls text inner1 → first_span opn cls text inner2 →
  inner1 = inner2.
Proof.
  intros (pre1 & post1 & H1 & F1) (pre2 & post2 & H2 & F2).
  destruct (F1 _ _ _ H2) as [Hp12 Hi12].
  destruct (F2 _ _ _ H1) as [Hp21 Hi21].
  assert (Hp : length pre1 = length pre2) by lia.
  assert (Hi : length inner1 = length inner2).
  { specialize (Hi12 Hp). specialize (Hi21 (eq_sym Hp)). lia. }
  unfold is_span in *. rewrite H1 in H2.
  apply app_inj_1 in H2 as [_ H2]; [|exact Hp].
  apply app_inv_head in H2.
  apply app_inj_1 in H2 as [H2 _]; [exact H2 | exact Hi].
Qed.

Lemma lstrip_spec (s : pystr) :
  ∃ l, s = l ++ lstrip s ∧ Forall (λ c, isspace c = true) l ∧
       ∀ c, head (lstrip s) = Some c → isspace c = false.
Proof.
  induction s as [|c s (l & Hs & Hl & Hh)]; simpl.
  - exists []. by repeat split.
  - destruct (isspace c) eqn:Hc.
    + exists (c :: l). split; [by rewrite Hs at 1|]. split; [by constructor|done].
    + exists []. split; [done|]. split; [constructor|].
      intros c' [= <-]. exact Hc.
Qed.

(** [strip] removes exactly the whitespace at both ends. *)
Lemma strip_spec (s : pystr) : trimmed_of s (strip s).
Proof.
  unfold strip, rstrip.
  destruct (lstrip_spec s) as (l & Hs & Hl & Hh).
  destruct (lstrip_spec (reverse (lstrip s))) as (r & Hr & Hrs & Hrh).
  set (t := lstrip s) in *. set (u := lstrip (reverse t)) in *.
  assert (Ht : t = reverse u ++ reverse r).
  { rewrite <- reverse_app, <- Hr. by rewrite reverse_involutive. }
  exists l, (reverse r). split; [by rewrite <- Ht|].
  split; [exact Hl|]. split.
  - by apply Forall_reverse.
  - split.
    + intros c Hc. apply Hh. rewrite Ht.
      destruct (reverse u); [done|]. exact Hc.
    + intros c Hc. apply Hrh. by rewrite last_reverse in Hc.
Qed.

(** C3: on every text, the extraction returns the whitespace-trimmed inner
    content of the first [<thinking>...</thinking>] span (leftmost start,
    earliest close, any code point inside) and reports it found when the
    text has such a span, and returns the text itself, reported not found,
    when it has none; being a total function it has no failing case. *)
Theorem C3_extract_thinking_spec (text : pystr) :
  ((∃ pre inner post, is_span thinking_open thinking_close text pre inner post) →
   ∃ inner content,
     first_span thinking_open thinking_close text inner ∧
     trimmed_of inner content ∧
     extract_thinking text = (content, true)) ∧
  ((∀ pre inner post, ¬ is_span thinking_open thinking_close text pre inner post) →
   extract_thinking text = (text, false)) ∧
  (∀ inner,
     first_span thinking_open thinking_close text inner →
     trimmed_of inner (strip inner) ∧
     extract_thinking text = (strip inner, true)).
Proof.
  unfold extract_thinking, actual_thinking, thinking_match.
  destruct (re_search thinking_open thinking_close text) as [g|] eqn:E.
  - pose proof (re_search_Some _ _ _ _ E) as Hfirst.
    split; [|split].
    + intros _. exists g, (strip g).
      split; [exact Hfirst|]. split; [apply strip_spec | reflexivity].
    + intros Hno. destruct Hfirst as (pre & post & Hs & _).
      destruct (Hno _ _ _ Hs).
    + intros inner Hin.
      rewrite (first_span_unique _ _ _ _ _ Hin Hfirst).
      split; [apply strip_spec | reflexivity].
  - pose proof (re_search_None _ _ _ E) as Hnone.
    split; [|split].
    + intros (pre & inner & post & Hs). destruct (Hnone _ _ _ Hs).
    + intros _. reflexivity.
    + intros inner (pre & post & Hs & _). destruct (Hnone _ _ _ Hs).
Qed.

(** ** The pipeline *)

Section PipelineProperties.
Context `{W : World}.
Implicit Types (file : option bytes) (h : list event).
Implicit Types (user_prompt system_prompt cot_prompt selected_model : pystr).

Lemma read_document_content_Some (f : bytes) h :
  read_document_content (Some f) h =
  match PdfReader_pages f with
  | inr pages => (inr (Some (join nl pages)), h ++ [EvPdfReader f])
  | inl _ =>
      match Document_paragraphs f with
      | inr paragraphs =>
          (inr (Some (join nl paragraphs)), h ++ [EvPdfReader f; EvDocument f])
      | inl _ => (inl document_error, h ++ [EvPdfReader f; EvDocument f])
      end
  end.
Proof.
  unfold read_document_content, read_pdf_or_docx, try_except, bind, call,
    ret, raise.
  destruct (PdfReader_pages f); [|reflexivity].
  destruct (Document_paragraphs f); by rewrite <- app_assoc.
Qed.

(** The body of the [try], with the monad unfolded. *)
Lemma process_question_body_unfold
    file user_prompt system_prompt cot_prompt selected_model
    (use_default_cot : bool) h :
  process_question_body file user_prompt system_prompt cot_prompt
    selected_model use_default_cot h =
  if decide (selected_model ∈ dom AVAILABLE_MODELS) then
    match read_document_content file h with
    | (inl e, hd) => (inl e, hd)
    | (inr document_content, hd) =>
        let doc_content := doc_content_of document_content in
        if use_default_cot then
          let p := initial_response_prompt system_prompt doc_content user_prompt in
          let ev1 := EvModelResponse selected_model p in
          let ev2 := EvCotReflection system_prompt cot_prompt user_prompt
                       document_content selected_model in
          match get_model_response hd selected_model p with
          | inl e => (inl e, hd ++ [ev1])
          | inr initial_response =>
              match cot_reflection (hd ++ [ev1]) system_prompt cot_prompt
                      user_prompt document_content selected_model with
              | inl e => (inl e, hd ++ [ev1; ev2])
              | inr (thinking, reflection, output) =>
                  (inr {| user_prompt_output := user_prompt;
                          initial_response_output := initial_response;
                          thinking_output := actual_thinking thinking;
                          reflection_output := reflection;
                          final_output := output;
                          system_prompt_value := Some system_prompt;
                          cot_prompt_value := Some cot_prompt |},
                   hd ++ [ev1; ev2])
              end
          end
        else
          let p := direct_response_prompt system_prompt doc_content user_prompt in
          match get_model_response hd selected_model p with
          | inl e => (inl e, hd ++ [EvModelResponse selected_model p])
          | inr direct_response =>
              (inr {| user_prompt_output := user_prompt;
                      initial_response_output := direct_response;
                      thinking_output := [];
                      reflection_output := [];
                      final_output := [];
                      system_prompt_value := Some system_prompt;
                      cot_prompt_value := None |},
               hd ++ [EvModelResponse selected_model p])
          end
    end
  else (inl (invalid_model_error selected_model), h).
Proof.
  unfold process_question_body, bind, call, ret, raise.
  destruct (decide (selected_model ∈ dom AVAILABLE_MODELS)); [|reflexivity].
  destruct (read_document_content file h) as [[err|document_content] hd];
    [reflexivity|].
  destruct use_default_cot; simpl.
  - destruct (get_model_response hd selected_model _); [reflexivity|].
    destruct (cot_reflection _ _ _ _ _ _) as [?|[[thinking reflection] output]];
      by rewrite <- app_assoc.
  - by destruct (get_model_response hd selected_model _).
Qed.

Lemma process_question_of_body
    file user_prompt system_prompt cot_prompt selected_model
    (use_default_cot : bool) h :
  process_question file user_prompt system_prompt cot_prompt
    selected_model use_default_cot h =
  match process_question_body file user_prompt system_prompt cot_prompt
          selected_model use_default_cot h with
  | (inr out, h') => (inr out, h')
  | (inl e, h') => (inr (error_outputs user_prompt e), h')
  end.
Proof. reflexivity. Qed.

(** The history only grows. *)
Lemma read_document_content_extends file h :
  ∃ evs, snd (read_document_content file h) = h ++ evs.
Proof.
  destruct file as [f|].
  - rewrite read_document_content_Some.
    destruct (PdfReader_pages f); [destruct (Document_paragraphs f)|];
      simpl; eauto.
  - exists []. simpl. by rewrite app_nil_r.
Qed.

Lemma read_document_content_events file h r hd :
  read_document_content file h = (r, hd) →
  ∃ evs, hd = h ++ evs ∧ filter (λ ev, is_backend_event ev = true) evs = [].
Proof.
  destruct file as [f|].
  - rewrite read_document_content_Some.
    destruct (PdfReader_pages f); [destruct (Document_paragraphs f)|];
      intros [= _ <-]; eexists; (split; [reflexivity|]); reflexivity.
  - intros [= _ <-]. exists []. by rewrite app_nil_r.
Qed.

Lemma new_events_app {A} (c : M A) h evs :
  snd (c h) = h ++ evs → new_events c h = evs.
Proof. unfold new_events. intros ->. by rewrite drop_app_length. Qed.

(** Every run returns a tuple, and its first component is the question. *)
Lemma process_question_returns
    file user_prompt system_prompt cot_prompt selected_model
    (use_default_cot : bool) h :
  ∃ out h',
    process_question file user_prompt system_prompt cot_prompt
      selected_model use_default_cot h = (inr out, h') ∧
    user_prompt_output out = user_prompt.
Proof.
  rewrite process_question_of_body, process_question_body_unfold.
  destruct (decide (selected_model ∈ dom AVAILABLE_MODELS)); [|by eauto].
  destruct (read_document_content file h) as [[err|document_content] hd];
    [by eauto|].
  destruct use_default_cot; simpl.
  - destruct (get_model_response hd selected_model _); [by eauto|].
    destruct (cot_reflection _ _ _ _ _ _) as [?|[[thinking reflection] output]];
      by eauto.
  - destruct (get_model_response hd selected_model _); by eauto.
Qed.

(** C10: whatever the inputs and whatever the outside world answers,
    [process_question] returns a tuple (it does not raise) whose first
    component is the caller's [user_prompt]; this covers the reasoned
    return, the direct return and the return of the [except] clause. *)
Theorem C10_user_prompt_echoed
    file user_prompt system_prompt cot_prompt selected_model
    (use_default_cot : bool) h :
  (∃ out h',
     process_question file user_prompt system_prompt cot_prompt
       selected_model use_default_cot h = (inr out, h') ∧
     user_prompt_output out = user_prompt) ∧
  (∀ out h',
     process_question file user_prompt system_prompt cot_prompt
       selected_model use_default_cot h = (inr out, h') →
     user_prompt_output out = user_prompt).
Proof.
  destruct (process_question_returns file user_prompt system_prompt cot_prompt
              selected_model use_default_cot h) as (out & h' & Hpq & Hup).
  split; [by eauto|].
  intros out' h'' Hpq'. rewrite Hpq in Hpq'. by injection Hpq' as <- _.
Qed.

(** C4: when the selected model is not a key of [AVAILABLE_MODELS],
    [process_question] returns the error tuple for "Invalid model
    selected" and leaves the history as it was: no model call, no
    chain-of-thought call and no document parser ran. *)
Theorem C4_unregistered_model_no_backend
    file user_prompt system_prompt cot_prompt selected_model
    (use_default_cot : bool) h :
  selected_model ∉ dom AVAILABLE_MODELS →
  process_question file user_prompt system_prompt cot_prompt
    selected_model use_default_cot h
  = (inr (error_outputs user_prompt (invalid_model_error selected_model)), h) ∧
  new_events (process_question file user_prompt system_prompt cot_prompt
                selected_model use_default_cot) h = [].
Proof.
  intros Hm.
  assert (Hpq : process_question file user_prompt system_prompt cot_prompt
                  selected_model use_default_cot h
    = (inr (error_outputs user_prompt (invalid_model_error selected_model)), h)).
  { rewrite process_question_of_body, process_question_body_unfold.
    by destruct (decide (selected_model ∈ dom AVAILABLE_MODELS)). }
  split; [exact Hpq|].
  apply new_events_app. rewrite Hpq. simpl. by rewrite app_nil_r.
Qed.

(** C2 (amended): in direct mode, with a registered model, a document
    that is absent or readable and a backend that answers, the run makes
    exactly one backend call, with the direct prompt, and returns the
    user prompt, that answer in the initial-response component, empty
    thinking, reflection and final output, the system prompt, and no
    chain-of-thought prompt. *)
Theorem C2_direct_mode_answer_in_initial_response
    file user_prompt system_prompt cot_prompt selected_model h
    (document_content : option pystr) (hd : list event) (response : pystr) :
  selected_model ∈ dom AVAILABLE_MODELS →
  read_document_content file h = (inr document_content, hd) →
  get_model_response hd selected_model
    (direct_response_prompt system_prompt (doc_content_of document_content)
       user_prompt) = inr response →
  process_question file user_prompt system_prompt cot_prompt selected_model
    false h
  = (inr {| user_prompt_output := user_prompt;
            initial_response_output := response;
            thinking_output := [];
            reflection_output := [];
            final_output := [];
            system_prompt_value := Some system_prompt;
            cot_prompt_value := None |},
     hd ++ [EvModelResponse selected_model
              (direct_response_prompt system_prompt
                 (doc_content_of document_content) user_prompt)]) ∧
  filter (λ ev, is_backend_event ev = true)
    (new_events (process_question file user_prompt system_prompt cot_prompt
                   selected_model false) h)
  = [EvModelResponse selected_model
       (direct_response_prompt system_prompt (doc_content_of document_content)
          user_prompt)].
Proof.
  intros Hm Hdoc Hresp.
  match goal with |- ?lhs = ?rhs ∧ _ => assert (Hpq : lhs = rhs) end.
  { rewrite process_question_of_body, process_question_body_unfold.
    destruct (decide (selected_model ∈ dom AVAILABLE_MODELS)); [|done].
    rewrite Hdoc. simpl. by rewrite Hresp. }
  split; [exact Hpq|].
  destruct (read_document_content_events _ _ _ _ Hdoc) as (evs & -> & Hevs).
  erewrite new_events_app; [|rewrite Hpq; simpl; by rewrite <- app_assoc].
  by rewrite filter_app, Hevs.
Qed.

(** C1 (amended): [process_question] never raises; every exception raised
    inside its [try] becomes the error tuple, whose initial-response
    component is "An error occurred: " followed by the exception text and
    whose thinking, reflection and final-output components are empty and
    whose two prompt components are [None]; an unregistered model, a
    document neither parser reads, and a failing model or chain-of-thought
    call each raise inside the [try]. *)
Theorem C1_errors_reported_in_initial_response
    file user_prompt system_prompt cot_prompt selected_model
    (use_default_cot : bool) h :
  let run := process_question file user_prompt system_prompt cot_prompt
               selected_model use_default_cot in
  (∃ out h', run h = (inr out, h')) ∧
  (∀ e h',
     process_question_body file user_prompt system_prompt cot_prompt
       selected_model use_default_cot h = (inl e, h') →
     run h = (inr (error_outputs user_prompt e), h')) ∧
  (∀ e,
     initial_response_output (error_outputs user_prompt e)
       = py "An error occurred: " ++ str_exn e ∧
     thinking_output (error_outputs user_prompt e) = [] ∧
     reflection_output (error_outputs user_prompt e) = [] ∧
     final_output (error_outputs user_prompt e) = [] ∧
     system_prompt_value (error_outputs user_prompt e) = None ∧
     cot_prompt_value (error_outputs user_prompt e) = None) ∧
  (selected_model ∉ dom AVAILABLE_MODELS →
   run h = (inr (error_outputs user_prompt (invalid_model_error selected_model)),
            h)) ∧
  (∀ f e1 e2,
     selected_model ∈ dom AVAILABLE_MODELS →
     file = Some f →
     PdfReader_pages f = inl e1 →
     Document_paragraphs f = inl e2 →
     run h = (inr (error_outputs user_prompt document_error),
              h ++ [EvPdfReader f; EvDocument f])) ∧
  (∀ document_content hd e,
     selected_model ∈ dom AVAILABLE_MODELS →
     read_document_content file h = (inr document_content, hd) →
     get_model_response hd selected_model
       ((if use_default_cot then initial_response_prompt
         else direct_response_prompt)
          system_prompt (doc_content_of document_content) user_prompt)
       = inl e →
     ∃ h', run h = (inr (error_outputs user_prompt e), h')) ∧
  (∀ document_content hd initial_response e,
     selected_model ∈ dom AVAILABLE_MODELS →
     read_document_content file h = (inr document_content, hd) →
     use_default_cot = true →
     get_model_response hd selected_model
       (initial_response_prompt system_prompt (doc_content_of document_content)
          user_prompt) = inr initial_response →
     cot_reflection
       (hd ++ [EvModelResponse selected_model
                 (initial_response_prompt system_prompt
                    (doc_content_of document_content) user_prompt)])
       system_prompt cot_prompt user_prompt document_content selected_model
       = inl e →
     ∃ h', run h = (inr (error_outputs user_prompt e), h')).
Proof.
  intros run. unfold run.
  split; [|split; [|split; [|split; [|split; [|split]]]]].
  - destruct (process_question_returns file user_prompt system_prompt cot_prompt
                selected_model use_default_cot h) as (out & h' & Hpq & _).
    eauto.
  - intros e h' Hbody. by rewrite process_question_of_body, Hbody.
  - intros e. by repeat split.
  - intros Hm.
    rewrite process_question_of_body, process_question_body_unfold.
    by destruct (decide (selected_model ∈ dom AVAILABLE_MODELS)).
  - intros f e1 e2 Hm -> Hpdf Hdocx.
    rewrite process_question_of_body, process_question_body_unfold.
    destruct (decide (selected_model ∈ dom AVAILABLE_MODELS)); [|done].
    by rewrite read_document_content_Some, Hpdf, Hdocx.
  - intros document_content hd e Hm Hdoc Hresp.
    rewrite process_question_of_body, process_question_body_unfold.
    destruct (decide (selected_model ∈ dom AVAILABLE_MODELS)); [|done].
    rewrite Hdoc. destruct use_default_cot; simpl; rewrite Hresp; eauto.
  - intros document_content hd initial_response e Hm Hdoc -> Hresp Hcot.
    rewrite process_question_of_body, process_question_body_unfold.
    destruct (decide (selected_model ∈ dom AVAILABLE_MODELS)); [|done].
    rewrite Hdoc. simpl. rewrite Hresp, Hcot. eauto.
Qed.
End PipelineProperties.

Lemma C4_witness :
  process_question (W := demo_world) None question_2_plus_2 demo_system_prompt
    demo_cot_prompt (py "GPT-9") true []
  = (inr (error_outputs question_2_plus_2 (invalid_model_error (py "GPT-9"))), [])
  ∧ new_events (process_question (W := demo_world) None question_2_plus_2
                  demo_system_prompt demo_cot_prompt (py "GPT-9") true) [] = [].
Proof.
  apply (C4_unregistered_model_no_backend (W := demo_world)).
  refine (bool_decide_unpack _ _). vm_compute. exact I.
Defined.

Lemma gemini_registered : gemini ∈ dom (AVAILABLE_MODELS (World := demo_world)).
Proof. refine (bool_decide_unpack _ _). vm_compute. exact I. Defined.

Lemma gemini_registered_failing :
  gemini ∈ dom (AVAILABLE_MODELS (World := failing_world)).
Proof. refine (bool_decide_unpack _ _). vm_compute. exact I. Defined.

Lemma C3_witness :
  (trimmed_of (py "because arithmetic") (py "because arithmetic") ∧
   extract_thinking scenario_response = (py "because arithmetic", true)) ∧
  extract_thinking (py "no tags at all") = (py "no tags at all", false).
Proof.
  split.
  - apply (proj2 (proj2 (C3_extract_thinking_spec scenario_response))
             (py "because arithmetic")).
    apply re_search_Some. vm_compute. reflexivity.
  - apply (proj1 (proj2 (C3_extract_thinking_spec (py "no tags at all")))).
    apply re_search_None. vm_compute. reflexivity.
Defined.

Lemma C2_witness :
  process_question (W := demo_world) None question_2_plus_2 demo_system_prompt
    demo_cot_prompt gemini false []
  = (inr {| user_prompt_output := question_2_plus_2;
            initial_response_output := py "4";
            thinking_output := [];
            reflection_output := [];
            final_output := [];
            system_prompt_value := Some demo_system_prompt;
            cot_prompt_value := None |},
     [] ++ [EvModelResponse gemini
              (direct_response_prompt demo_system_prompt (doc_content_of None)
                 question_2_plus_2)]) ∧
  filter (λ ev, is_backend_event ev = true)
    (new_events (process_question (W := demo_world) None question_2_plus_2
                   demo_system_prompt demo_cot_prompt gemini false) [])
  = [EvModelResponse gemini
       (direct_response_prompt demo_system_prompt (doc_content_of None)
          question_2_plus_2)].
Proof.
  apply (C2_direct_mode_answer_in_initial_response (W := demo_world)
           None question_2_plus_2 demo_system_prompt demo_cot_prompt gemini []
           None [] (py "4")).
  - exact gemini_registered.
  - reflexivity.
  - reflexivity.
Defined.

(** The answer of a direct run is not in the final output. *)
Lemma C2_counterexample :
  ¬ direct_answer_is_final (W := demo_world) None question_2_plus_2
      demo_system_prompt demo_cot_prompt gemini [].
Proof.
  intros H.
  destruct (H None [] (py "4") gemini_registered eq_refl eq_refl)
    as (out & h' & Hpq & _ & _ & _ & Hfinal & _).
  vm_compute in Hpq. injection Hpq as <- _.
  vm_compute in Hfinal. discriminate Hfinal.
Qed.

Lemma C1_witness :
  process_question (W := demo_world) None question_2_plus_2 demo_system_prompt
    demo_cot_prompt (py "GPT-9") true []
  = (inr (error_outputs question_2_plus_2 (invalid_model_error (py "GPT-9"))), [])
  ∧ process_question (W := demo_world) (Some [Byte.x25; Byte.x50])
      question_2_plus_2 demo_system_prompt demo_cot_prompt gemini true []
    = (inr (error_outputs question_2_plus_2 document_error),
       [] ++ [EvPdfReader [Byte.x25; Byte.x50]; EvDocument [Byte.x25; Byte.x50]])
  ∧ ∃ h',
      process_question (W := failing_world) None question_2_plus_2
        demo_system_prompt demo_cot_prompt gemini false []
      = (inr (error_outputs question_2_plus_2 backend_down), h').
Proof.
  split; [|split].
  - apply (C1_errors_reported_in_initial_response (W := demo_world)
             None question_2_plus_2 demo_system_prompt demo_cot_prompt
             (py "GPT-9") true []).
    refine (bool_decide_unpack _ _). vm_compute. exact I.
  - apply (C1_errors_reported_in_initial_response (W := demo_world)
             (Some [Byte.x25; Byte.x50]) question_2_plus_2 demo_system_prompt
             demo_cot_prompt gemini true [])
      with (e1 := unreadable) (e2 := unreadable).
    + exact gemini_registered.
    + reflexivity.
    + reflexivity.
    + reflexivity.
  - apply (C1_errors_reported_in_initial_response (W := failing_world)
             None question_2_plus_2 demo_system_prompt demo_cot_prompt
             gemini false []) with (document_content := None) (hd := []).
    + exact gemini_registered_failing.
    + reflexivity.
    + reflexivity.
Defined.

(** An unregistered model: the error text is in the initial response and
    the final output is empty. *)
Lemma C1_counterexample :
  ¬ error_in_final_answer (W := demo_world) None question_2_plus_2
      demo_system_prompt demo_cot_prompt (py "GPT-9") true [].
Proof.
  intros H.
  assert (Hbody :
    process_question_body (W := demo_world) None question_2_plus_2
      demo_system_prompt demo_cot_prompt (py "GPT-9") true []
    = (inl (invalid_model_error (py "GPT-9")), [])).
  { vm_compute. reflexivity. }
  destruct (H _ _ Hbody) as (out & Hpq & Hfinal & _).
  vm_compute in Hpq. injection Hpq as <-.
  apply Hfinal. reflexivity.
Qed.

(** ** The snapshot store *)

Lemma wf_empty_store : SnapshotDB.wf SnapshotDB.empty_store.
Proof. split; [simpl; lia|]. intros k s. simpl. by rewrite lookup_empty. Qed.

Lemma wf_save_snapshot st record now :
  SnapshotDB.wf st → SnapshotDB.wf (SnapshotDB.save_snapshot st record now).1.
Proof.
  intros [Hpos Hrec]. split; simpl; [lia|].
  intros k s. rewrite lookup_insert_Some.
  intros [[<- <-]|[Hne Hk]]; simpl; [split; [done|lia]|].
  destruct (Hrec _ _ Hk). split; [done|lia].
Qed.

Lemma wf_delete_snapshot st snapshot_id :
  SnapshotDB.wf st → SnapshotDB.wf (SnapshotDB.delete_snapshot st snapshot_id).1.
Proof.
  intros [Hpos Hrec]. unfold SnapshotDB.delete_snapshot.
  destruct (SnapshotDB.records st !! snapshot_id) as [old|] eqn:E; simpl;
    [|done].
  split; [done|]. intros k s. simpl. rewrite lookup_delete_Some.
  intros [_ Hk]. exact (Hrec _ _ Hk).
Qed.

Lemma step_save st record now :
  SnapshotDB.step st (SnapshotDB.Save record now)
  = ((SnapshotDB.save_snapshot st record now).1, SnapshotDB.Saved (SnapshotDB.next_id st)).
Proof. reflexivity. Qed.

Lemma step_delete st snapshot_id :
  SnapshotDB.step st (SnapshotDB.Delete snapshot_id)
  = ((SnapshotDB.delete_snapshot st snapshot_id).1,
     SnapshotDB.Deleted (SnapshotDB.delete_snapshot st snapshot_id).2).
Proof.
  unfold SnapshotDB.step. by destruct (SnapshotDB.delete_snapshot st snapshot_id).
Qed.

Lemma run_cons st o ops :
  SnapshotDB.run st (o :: ops)
  = ((SnapshotDB.run (SnapshotDB.step st o).1 ops).1,
     (SnapshotDB.step st o).2 :: (SnapshotDB.run (SnapshotDB.step st o).1 ops).2).
Proof.
  cbn [SnapshotDB.run]. destruct (SnapshotDB.step st o) as [st' r].
  cbn [fst snd]. by destruct (SnapshotDB.run st' ops).
Qed.

Lemma next_id_delete_snapshot st snapshot_id :
  SnapshotDB.next_id (SnapshotDB.delete_snapshot st snapshot_id).1
  = SnapshotDB.next_id st.
Proof.
  unfold SnapshotDB.delete_snapshot.
  by destruct (SnapshotDB.records st !! snapshot_id).
Qed.

(** A lifetime keeps the store well formed and hands out identifiers in
    increasing order, none below the counter it started from. *)
Lemma run_invariant ops : ∀ st,
  SnapshotDB.wf st →
  SnapshotDB.wf (SnapshotDB.run st ops).1 ∧
  (SnapshotDB.next_id st ≤ SnapshotDB.next_id (SnapshotDB.run st ops).1)%Z ∧
  Forall (λ i, SnapshotDB.next_id st ≤ i < SnapshotDB.next_id (SnapshotDB.run st ops).1)%Z
    (SnapshotDB.saved_ids (SnapshotDB.run st ops).2) ∧
  StronglySorted Z.lt (SnapshotDB.saved_ids (SnapshotDB.run st ops).2).
Proof.
  induction ops as [|o ops IH]; intros st Hwf.
  - simpl. split; [exact Hwf|]. split; [lia|]. split; constructor.
  - rewrite run_cons. destruct o as [record now|snapshot_id].
    + rewrite step_save. simpl fst. simpl snd.
      destruct (IH _ (wf_save_snapshot st record now Hwf)) as (Hwf' & Hle & Hall & Hsorted).
      simpl in Hle, Hall.
      split; [exact Hwf'|]. split; [simpl; lia|].
      unfold SnapshotDB.saved_ids. simpl.
      split.
      * constructor; [simpl; lia|].
        eapply Forall_impl; [exact Hall|]. simpl. intros i Hi. lia.
      * constructor; [exact Hsorted|].
        eapply Forall_impl; [exact Hall|]. simpl. intros i Hi. lia.
    + rewrite step_delete. simpl fst. simpl snd.
      destruct (IH _ (wf_delete_snapshot st snapshot_id Hwf)) as (Hwf' & Hle & Hall & Hsorted).
      rewrite next_id_delete_snapshot in Hle, Hall.
      split; [exact Hwf'|]. split; [exact Hle|].
      unfold SnapshotDB.saved_ids. simpl. split; [exact Hall | exact Hsorted].
Qed.

Lemma StronglySorted_lt_NoDup (l : list Z) : StronglySorted Z.lt l → NoDup l.
Proof.
  induction 1 as [|x l Hs IH Hall]; constructor; [|exact IH].
  intros Hin. rewrite Forall_forall in Hall. specialize (Hall _ Hin). lia.
Qed.

(** C5: over a whole store lifetime, saves and deletes in any order from
    the empty store, the identifiers the saves return are strictly
    increasing, hence pairwise distinct and never handed out again after a
    delete; and two records of the resulting store with the same
    identifier are one record under one key. *)
Theorem C5_identifiers_strictly_increasing (ops : list SnapshotDB.op) :
  let st := (SnapshotDB.run SnapshotDB.empty_store ops).1 in
  let ids := SnapshotDB.saved_ids (SnapshotDB.run SnapshotDB.empty_store ops).2 in
  StronglySorted Z.lt ids ∧
  NoDup ids ∧
  (∀ record now, Forall (λ i, i < (SnapshotDB.save_snapshot st record now).2)%Z ids) ∧
  (∀ k1 k2 s1 s2,
     SnapshotDB.get_by_id st k1 = Some s1 →
     SnapshotDB.get_by_id st k2 = Some s2 →
     SnapshotDB.id s1 = SnapshotDB.id s2 →
     k1 = k2 ∧ s1 = s2).
Proof.
  intros st ids.
  destruct (run_invariant ops _ wf_empty_store) as (Hwf & _ & Hall & Hsorted).
  split; [exact Hsorted|].
  split; [by apply StronglySorted_lt_NoDup|].
  split.
  - intros record now. eapply Forall_impl; [exact Hall|].
    intros i [_ Hi]. exact Hi.
  - intros k1 k2 s1 s2 H1 H2 Hid. destruct Hwf as [_ Hrec].
    destruct (Hrec _ _ H1) as [E1 _]. destruct (Hrec _ _ H2) as [E2 _].
    assert (k1 = k2) as -> by congruence.
    unfold SnapshotDB.get_by_id in *. split; [done | congruence].
Qed.

(** C6: in every store, after [delete_snapshot] the lookup of that
    identifier is [not_found]; on a stored identifier the first delete
    answers [true] and a second one [false]; on an identifier that is not
    stored the delete answers [false] and leaves the store as it is. *)
Theorem C6_delete_then_lookup (st : SnapshotDB.Store) (snapshot_id : Z) :
  SnapshotDB.get_by_id (SnapshotDB.delete_snapshot st snapshot_id).1 snapshot_id
    = None ∧
  (is_Some (SnapshotDB.get_by_id st snapshot_id) →
   (SnapshotDB.delete_snapshot st snapshot_id).2 = true ∧
   (SnapshotDB.delete_snapshot
      (SnapshotDB.delete_snapshot st snapshot_id).1 snapshot_id).2 = false) ∧
  (SnapshotDB.get_by_id st snapshot_id = None →
   SnapshotDB.delete_snapshot st snapshot_id = (st, false)) ∧
  (∀ preview,
     delete_btn_click preview st (Some snapshot_id)
     = ((SnapshotDB.delete_snapshot st snapshot_id).1,
        inl (SnapshotDB.delete_snapshot st snapshot_id).2)).
Proof.
  unfold SnapshotDB.get_by_id, delete_btn_click.
  assert (Hgone :
    SnapshotDB.records (SnapshotDB.delete_snapshot st snapshot_id).1
      !! snapshot_id = None).
  { unfold SnapshotDB.delete_snapshot.
    destruct (SnapshotDB.records st !! snapshot_id) eqn:E; simpl;
      [apply lookup_delete_eq | exact E]. }
  split; [exact Hgone|]. split; [|split].
  - intros [s Hs]. split.
    + unfold SnapshotDB.delete_snapshot at 1. by rewrite Hs.
    + unfold SnapshotDB.delete_snapshot at 1. by rewrite Hgone.
  - intros Hs. unfold SnapshotDB.delete_snapshot. by rewrite Hs.
  - intros preview. by destruct (SnapshotDB.delete_snapshot st snapshot_id).
Qed.

Lemma C5_witness :
  StronglySorted Z.lt
    (SnapshotDB.saved_ids
       (SnapshotDB.run SnapshotDB.empty_store
          [SnapshotDB.Save demo_fields 100; SnapshotDB.Delete 1;
           SnapshotDB.Save other_fields 200]).2) ∧
  (2%Z = 2%Z ∧
   {| SnapshotDB.id := 2; SnapshotDB.created_at := 200;
      SnapshotDB.fields := other_fields |}
   = {| SnapshotDB.id := 2; SnapshotDB.created_at := 200;
        SnapshotDB.fields := other_fields |}).
Proof.
  split.
  - apply (C5_identifiers_strictly_increasing
             [SnapshotDB.Save demo_fields 100; SnapshotDB.Delete 1;
              SnapshotDB.Save other_fields 200]).
  - apply (C5_identifiers_strictly_increasing
             [SnapshotDB.Save demo_fields 100; SnapshotDB.Delete 1;
              SnapshotDB.Save other_fields 200]).
    + vm_compute. reflexivity.
    + vm_compute. reflexivity.
    + reflexivity.
Defined.

Lemma C6_witness :
  (SnapshotDB.delete_snapshot demo_store 1).2 = true ∧
  (SnapshotDB.delete_snapshot (SnapshotDB.delete_snapshot demo_store 1).1 1).2
    = false ∧
  SnapshotDB.delete_snapshot demo_store 7 = (demo_store, false).
Proof.
  pose proof (C6_delete_then_lookup demo_store 1) as (_ & Hstored & _).
  pose proof (C6_delete_then_lookup demo_store 7) as (_ & _ & Hmissing & _).
  split; [|split].
  - apply Hstored. refine (bool_decide_unpack _ _). vm_compute. exact I.
  - apply Hstored. refine (bool_decide_unpack _ _). vm_compute. exact I.
  - apply Hmissing. vm_compute. reflexivity.
Defined.

Lemma to_dict_lookups (s : SnapshotDB.Snapshot) :
  SnapshotDB.to_dict s !! py "id" = Some (VInt (SnapshotDB.id s)) ∧
  SnapshotDB.to_dict s !! py "created_at" = Some (VInt (SnapshotDB.created_at s)) ∧
  SnapshotDB.to_dict s !! py "snapshot_name"
    = Some (VStr (SnapshotDB.snapshot_name (SnapshotDB.fields s))) ∧
  SnapshotDB.to_dict s !! py "user_prompt"
    = Some (VStr (SnapshotDB.user_prompt (SnapshotDB.fields s))) ∧
  SnapshotDB.to_dict s !! py "system_prompt"
    = Some (VStr (SnapshotDB.system_prompt (SnapshotDB.fields s))) ∧
  SnapshotDB.to_dict s !! py "model_name"
    = Some (VStr (SnapshotDB.model_name (SnapshotDB.fields s))) ∧
  SnapshotDB.to_dict s !! py "cot_prompt"
    = Some (opt_str (SnapshotDB.cot_prompt (SnapshotDB.fields s))) ∧
  SnapshotDB.to_dict s !! py "initial_response"
    = Some (VStr (SnapshotDB.initial_response (SnapshotDB.fields s))) ∧
  SnapshotDB.to_dict s !! py "thinking"
    = Some (VStr (SnapshotDB.thinking (SnapshotDB.fields s))) ∧
  SnapshotDB.to_dict s !! py "reflection"
    = Some (VStr (SnapshotDB.reflection (SnapshotDB.fields s))) ∧
  SnapshotDB.to_dict s !! py "final_response"
    = Some (VStr (SnapshotDB.final_response (SnapshotDB.fields s))) ∧
  SnapshotDB.to_dict s !! py "tags"
    = Some (VStr (SnapshotDB.tags (SnapshotDB.fields s))).
Proof. repeat split; vm_compute; reflexivity. Qed.

Lemma opt_str_inj (a b : option pystr) : opt_str a = opt_str b → a = b.
Proof. destruct a, b; simpl; congruence. Qed.

(** The dictionary of a record determines the record. *)
Lemma to_dict_inj (s1 s2 : SnapshotDB.Snapshot) :
  SnapshotDB.to_dict s1 = SnapshotDB.to_dict s2 → s1 = s2.
Proof.
  intros H.
  pose proof (to_dict_lookups s1) as L1. pose proof (to_dict_lookups s2) as L2.
  rewrite H in L1.
  destruct L1 as (A1 & A2 & A3 & A4 & A5 & A6 & A7 & A8 & A9 & A10 & A11 & A12).
  destruct L2 as (B1 & B2 & B3 & B4 & B5 & B6 & B7 & B8 & B9 & B10 & B11 & B12).
  rewrite A1 in B1. rewrite A2 in B2. rewrite A3 in B3. rewrite A4 in B4.
  rewrite A5 in B5. rewrite A6 in B6. rewrite A7 in B7. rewrite A8 in B8.
  rewrite A9 in B9. rewrite A10 in B10. rewrite A11 in B11. rewrite A12 in B12.
  injection B7 as B7. apply opt_str_inj in B7.
  destruct s1 as [i1 t1 []], s2 as [i2 t2 []]. simpl in *. congruence.
Qed.

Lemma to_dict_truthy (s : SnapshotDB.Snapshot) :
  dict_truthy (Some (SnapshotDB.to_dict s)) = true.
Proof. vm_compute. reflexivity. Qed.

(** C7: after any store lifetime, saving a record and exporting the
    identifier the save returned yields the record with exactly the fields
    passed to save, under the new identifier and the creation time of the
    save; [export_snapshot] hands the dictionary of that record to
    [json.dumps]; the dictionary holds every field passed to save, and
    determines the record. *)
Theorem C7_save_then_export_lossless
    (ops : list SnapshotDB.op) (record : SnapshotDB.Fields) (now : Z) :
  let st := (SnapshotDB.run SnapshotDB.empty_store ops).1 in
  let st' := (SnapshotDB.save_snapshot st record now).1 in
  let new_id := (SnapshotDB.save_snapshot st record now).2 in
  let saved := {| SnapshotDB.id := new_id; SnapshotDB.created_at := now;
                  SnapshotDB.fields := record |} in
  SnapshotDB.export st' new_id = Some saved ∧
  SnapshotDB.fields <$> SnapshotDB.export st' new_id = Some record ∧
  (∀ B : Builtins,
     export_snapshot (SnapshotDB.get_snapshot_by_id st') new_id
     = match json_dumps (SnapshotDB.to_dict saved) with
       | inr text => text
       | inl e => py "Error exporting snapshot: " ++ str_exn e
       end) ∧
  (dict_get (SnapshotDB.to_dict saved) (py "snapshot_name")
     = VStr (SnapshotDB.snapshot_name record) ∧
   dict_get (SnapshotDB.to_dict saved) (py "user_prompt")
     = VStr (SnapshotDB.user_prompt record) ∧
   dict_get (SnapshotDB.to_dict saved) (py "system_prompt")
     = VStr (SnapshotDB.system_prompt record) ∧
   dict_get (SnapshotDB.to_dict saved) (py "model_name")
     = VStr (SnapshotDB.model_name record) ∧
   dict_get (SnapshotDB.to_dict saved) (py "cot_prompt")
     = opt_str (SnapshotDB.cot_prompt record) ∧
   dict_get (SnapshotDB.to_dict saved) (py "initial_response")
     = VStr (SnapshotDB.initial_response record) ∧
   dict_get (SnapshotDB.to_dict saved) (py "thinking")
     = VStr (SnapshotDB.thinking record) ∧
   dict_get (SnapshotDB.to_dict saved) (py "reflection")
     = VStr (SnapshotDB.reflection record) ∧
   dict_get (SnapshotDB.to_dict saved) (py "final_response")
     = VStr (SnapshotDB.final_response record) ∧
   dict_get (SnapshotDB.to_dict saved) (py "tags")
     = VStr (SnapshotDB.tags record)) ∧
  (∀ other, SnapshotDB.to_dict other = SnapshotDB.to_dict saved → other = saved).
Proof.
  intros st st' new_id saved.
  assert (Hexp : SnapshotDB.export st' new_id = Some saved).
  { unfold SnapshotDB.export, st', new_id. simpl. apply lookup_insert_eq. }
  split; [exact Hexp|]. split; [by rewrite Hexp|]. split; [|split].
  - intros B. unfold export_snapshot, export_snapshot_body.
    destruct (run_invariant ops _ wf_empty_store) as ([Hpos _] & _).
    destruct (decide (new_id = 0%Z)) as [Hz|_].
    { unfold new_id in Hz. simpl in Hz. fold st in Hpos. lia. }
    unfold SnapshotDB.get_snapshot_by_id, SnapshotDB.get_by_id.
    unfold SnapshotDB.export in Hexp. rewrite Hexp.
    cbn [fmap option_fmap option_map]. rewrite to_dict_truthy. reflexivity.
  - unfold dict_get.
    destruct (to_dict_lookups saved)
      as (_ & _ & -> & -> & -> & -> & -> & -> & -> & -> & -> & ->).
    by repeat split.
  - intros other. apply to_dict_inj.
Qed.

Lemma C7_witness :
  SnapshotDB.export
    (SnapshotDB.save_snapshot SnapshotDB.empty_store demo_fields 100).1 1
  = Some {| SnapshotDB.id := 1; SnapshotDB.created_at := 100;
            SnapshotDB.fields := demo_fields |} ∧
  {| SnapshotDB.id := 1; SnapshotDB.created_at := 100;
     SnapshotDB.fields := demo_fields |}
  = {| SnapshotDB.id := 1; SnapshotDB.created_at := 100;
       SnapshotDB.fields := demo_fields |}.
Proof.
  pose proof (C7_save_then_export_lossless [] demo_fields 100)
    as (Hexport & _ & _ & _ & Hinj).
  split; [exact Hexport|].
  apply Hinj. reflexivity.
Defined.

#[global] Instance newer_first_total : Total SnapshotDB.newer_first.
Proof. intros a b. unfold SnapshotDB.newer_first. lia. Qed.

#[global] Instance newer_first_trans : Transitive SnapshotDB.newer_first.
Proof. intros a b c. unfold SnapshotDB.newer_first. lia. Qed.

Lemma contains_spec (needle hay : pystr) :
  SnapshotDB.contains needle hay = true ↔ ∃ pre post, hay = pre ++ needle ++ post.
Proof.
  induction hay as [|c hay IH]; simpl.
  - destruct (match_literal needle []) as [rest|] eqn:E.
    + apply match_literal_Some in E. split; [|done].
      intros _. by exists [], rest.
    + split; [done|]. intros ([|c pre] & post & Heq); [|done].
      simpl in Heq. rewrite Heq, match_literal_app in E. done.
  - destruct (match_literal needle (c :: hay)) as [rest|] eqn:E.
    + apply match_literal_Some in E. split; [|done].
      intros _. by exists [], rest.
    + rewrite IH. split.
      * intros (pre & post & ->). by exists (c :: pre), post.
      * intros ([|c' pre] & post & Heq).
        { simpl in Heq. rewrite Heq, match_literal_app in E. done. }
        injection Heq as _ ->. by exists pre, post.
Qed.

Lemma matches_spec (term : pystr) (s : SnapshotDB.Snapshot) :
  SnapshotDB.matches term s = true ↔ SnapshotDB.matches_words term s.
Proof.
  unfold SnapshotDB.matches, SnapshotDB.matches_words, SnapshotDB.contains_ci,
    SnapshotDB.ci_substring.
  rewrite !orb_true_iff, !contains_spec. tauto.
Qed.

Lemma elem_of_all_snapshots (st : SnapshotDB.Store) (s : SnapshotDB.Snapshot) :
  s ∈ SnapshotDB.all_snapshots st ↔ ∃ k, SnapshotDB.get_by_id st k = Some s.
Proof.
  unfold SnapshotDB.all_snapshots, SnapshotDB.get_by_id.
  rewrite list_elem_of_fmap. split.
  - intros ([k s'] & -> & Hin). apply elem_of_map_to_list in Hin. by exists k.
  - intros (k & Hk). exists (k, s). split; [done|]. by apply elem_of_map_to_list.
Qed.

Lemma NoDup_all_snapshots (st : SnapshotDB.Store) :
  SnapshotDB.wf st → NoDup (SnapshotDB.all_snapshots st).
Proof.
  intros [_ Hrec]. unfold SnapshotDB.all_snapshots.
  apply NoDup_fmap_2_strong; [|apply NoDup_map_to_list].
  intros [k1 s1] [k2 s2] H1 H2. simpl. intros <-.
  apply elem_of_map_to_list in H1, H2.
  destruct (Hrec _ _ H1) as [<- _]. destruct (Hrec _ _ H2) as [<- _]. done.
Qed.

Lemma matches_empty (s : SnapshotDB.Snapshot) : SnapshotDB.matches [] s = true.
Proof.
  unfold SnapshotDB.matches, SnapshotDB.contains_ci.
  by destruct (SnapshotDB.lower (SnapshotDB.snapshot_name (SnapshotDB.fields s))).
Qed.

Lemma list_snapshots_Permutation (st : SnapshotDB.Store) (search_term : pystr) :
  SnapshotDB.list_snapshots st search_term
  ≡ₚ filter (λ s, SnapshotDB.matches search_term s = true)
       (SnapshotDB.all_snapshots st).
Proof.
  unfold SnapshotDB.list_snapshots. rewrite merge_sort_Permutation.
  destruct search_term as [|c term]; [|done].
  induction (SnapshotDB.all_snapshots st) as [|s l IH]; [done|].
  rewrite filter_cons_True; [by f_equiv | apply matches_empty].
Qed.

(** C8: in every store, [list_snapshots] is ordered by creation time
    descending; with the empty term it is a rearrangement of all stored
    snapshots; with any term it is a rearrangement of the stored snapshots
    the search predicate accepts, so a snapshot is listed exactly when it
    is stored and the term is empty or occurs, letter case ignored, inside
    its name, its question or its tags; in a well-formed store no snapshot
    is listed twice; and [update_snapshots_table] turns the listed
    snapshots, in that order, into their six-column rows. *)
Theorem C8_list_snapshots_filtered_newest_first
    (st : SnapshotDB.Store) (search_term : pystr) :
  StronglySorted SnapshotDB.newer_first
    (SnapshotDB.list_snapshots st search_term) ∧
  SnapshotDB.list_snapshots st [] ≡ₚ SnapshotDB.all_snapshots st ∧
  SnapshotDB.list_snapshots st search_term
    ≡ₚ filter (λ s, SnapshotDB.matches search_term s = true)
         (SnapshotDB.all_snapshots st) ∧
  (∀ s,
     s ∈ SnapshotDB.list_snapshots st search_term ↔
     (∃ k, SnapshotDB.get_by_id st k = Some s) ∧
     (search_term = [] ∨ SnapshotDB.matches_words search_term s)) ∧
  (SnapshotDB.wf st → NoDup (SnapshotDB.list_snapshots st search_term)) ∧
  (∀ preview,
     update_snapshots_table (SnapshotDB.get_snapshots preview st) search_term
     = (λ s, [ VInt (SnapshotDB.id s);
               VStr (SnapshotDB.snapshot_name (SnapshotDB.fields s));
               VInt (SnapshotDB.created_at s);
               VStr (SnapshotDB.model_name (SnapshotDB.fields s));
               VStr (preview (SnapshotDB.user_prompt (SnapshotDB.fields s)));
               VStr (SnapshotDB.tags (SnapshotDB.fields s)) ])
       <$> SnapshotDB.list_snapshots st search_term).
Proof.
  split; [apply StronglySorted_merge_sort; apply _|].
  split; [unfold SnapshotDB.list_snapshots; apply merge_sort_Permutation|].
  split; [apply list_snapshots_Permutation|].
  split; [|split].
  - intros s. rewrite list_snapshots_Permutation, list_elem_of_filter,
      elem_of_all_snapshots, matches_spec.
    split.
    + intros [Hm Hk]. split; [done | by right].
    + intros [Hk [->|Hm]]; split; try done.
      left. by exists [], (SnapshotDB.lower (SnapshotDB.snapshot_name (SnapshotDB.fields s))).
  - intros Hwf. rewrite list_snapshots_Permutation.
    by apply NoDup_filter, NoDup_all_snapshots.
  - intros preview. unfold update_snapshots_table, SnapshotDB.get_snapshots.
    rewrite <- list_fmap_compose. reflexivity.
Qed.

Lemma C8_witness :
  {| SnapshotDB.id := 1; SnapshotDB.created_at := 100;
     SnapshotDB.fields := demo_fields |}
    ∈ SnapshotDB.list_snapshots demo_store (py "ARITH") ∧
  NoDup (SnapshotDB.list_snapshots demo_store (py "ARITH")).
Proof.
  pose proof (C8_list_snapshots_filtered_newest_first demo_store (py "ARITH"))
    as (_ & _ & _ & Hin & Hnodup & _).
  split.
  - apply Hin. split.
    + exists 1%Z. vm_compute. reflexivity.
    + right. right. right. exists (py "math, "), (py "metic").
      vm_compute. reflexivity.
  - apply Hnodup. apply (run_invariant _ _ wf_empty_store).
Defined.

(** ** The load handler *)

Lemma dict_truthy_Some (d : dict) : d ≠ ∅ → dict_truthy (Some d) = true.
Proof.
  intros Hd. unfold dict_truthy.
  rewrite bool_decide_eq_false_2; [done|]. by apply map_size_non_empty_iff.
Qed.

(** C9: [load_snapshot_by_id] always returns a list of ten values that
    ends in a status message, and does not raise: for the empty string,
    nine [None] and "Please enter a snapshot ID to load"; for a non-empty
    string [int] rejects, nine [None] and "Invalid Snapshot ID. Please
    enter a numeric ID."; for a number the database has no record of, nine
    [None] and "Snapshot not found"; for a number with a record, the nine
    fields of the record and the check-marked "Snapshot loaded
    successfully"; and when the database raises, nine [None] and "Error
    loading snapshot: " followed by the exception text. *)
Theorem C9_load_snapshot_by_id_cases
    `{B : Builtins} (get : Z → exn + option dict) (snapshot_id : pystr) :
  let result := load_snapshot_by_id get snapshot_id in
  length result = 10%nat ∧
  (∃ msg, last result = Some (VStr msg)) ∧
  (snapshot_id = [] →
   result = none9 ++ [VStr (py "Please enter a snapshot ID to load")]) ∧
  (snapshot_id ≠ [] → int_of_str snapshot_id = None →
   result
   = none9 ++ [VStr (py "Invalid Snapshot ID. Please enter a numeric ID.")]) ∧
  (∀ n, snapshot_id ≠ [] → int_of_str snapshot_id = Some n →
        get n = inr None →
        result = none9 ++ [VStr (py "Snapshot not found")]) ∧
  (∀ n d, snapshot_id ≠ [] → int_of_str snapshot_id = Some n →
          get n = inr (Some d) → d ≠ ∅ →
          result
          = [ dict_get d (py "snapshot_name"); dict_get d (py "user_prompt");
              dict_get d (py "system_prompt"); dict_get d (py "model_name");
              dict_get d (py "cot_prompt"); dict_get d (py "initial_response");
              dict_get d (py "thinking"); dict_get d (py "reflection");
              dict_get d (py "final_response");
              VStr (check_mark ++ py " Snapshot loaded successfully") ]) ∧
  (∀ n e, snapshot_id ≠ [] → int_of_str snapshot_id = Some n →
          get n = inl e →
          result = none9 ++ [VStr (py "Error loading snapshot: " ++ str_exn e)]) ∧
  (∀ st n s, get = SnapshotDB.get_snapshot_by_id st →
             snapshot_id ≠ [] → int_of_str snapshot_id = Some n →
             SnapshotDB.get_by_id st n = Some s →
             result
             = [ VStr (SnapshotDB.snapshot_name (SnapshotDB.fields s));
                 VStr (SnapshotDB.user_prompt (SnapshotDB.fields s));
                 VStr (SnapshotDB.system_prompt (SnapshotDB.fields s));
                 VStr (SnapshotDB.model_name (SnapshotDB.fields s));
                 opt_str (SnapshotDB.cot_prompt (SnapshotDB.fields s));
                 VStr (SnapshotDB.initial_response (SnapshotDB.fields s));
                 VStr (SnapshotDB.thinking (SnapshotDB.fields s));
                 VStr (SnapshotDB.reflection (SnapshotDB.fields s));
                 VStr (SnapshotDB.final_response (SnapshotDB.fields s));
                 VStr (check_mark ++ py " Snapshot loaded successfully") ]) ∧
  (∀ st n, get = SnapshotDB.get_snapshot_by_id st →
           snapshot_id ≠ [] → int_of_str snapshot_id = Some n →
           SnapshotDB.get_by_id st n = None →
           result = none9 ++ [VStr (py "Snapshot not found")]).
Proof.
  intros result. unfold result, load_snapshot_by_id, load_snapshot_by_id_body.
  destruct snapshot_id as [|c sid].
  { split; [done|]. split; [by eexists|]. repeat split; intros; congruence. }
  destruct (int_of_str (c :: sid)) as [n|] eqn:Hint.
  2: { split; [done|]. split; [by eexists|]. repeat split; intros; congruence. }
  assert (Hstore : ∀ st, get = SnapshotDB.get_snapshot_by_id st →
            get n = inr (SnapshotDB.to_dict <$> SnapshotDB.get_by_id st n)).
  { by intros st ->. }
  destruct (get n) as [e|[d|]] eqn:Hget.
  - split; [done|]. split; [by eexists|].
    repeat split; intros; cbn [from_option id]; simplify_eq; try done;
      try congruence.
    all: by specialize (Hstore _ eq_refl).
  - destruct (dict_truthy (Some d)) eqn:Htruthy.
    + split; [done|]. split; [by eexists|].
      repeat split; intros; cbn [from_option id]; simplify_eq; try done;
      try congruence.
      * specialize (Hstore _ eq_refl).
        match goal with Hs : SnapshotDB.get_by_id _ _ = Some _ |- _ =>
          rewrite Hs in Hstore end.
        injection Hstore as ->. unfold dict_get. cbn [from_option id].
        match goal with |- context [SnapshotDB.to_dict ?s] =>
          destruct (to_dict_lookups s)
            as (_ & _ & -> & -> & -> & -> & -> & -> & -> & -> & -> & _) end.
        reflexivity.
      * specialize (Hstore _ eq_refl).
        match goal with Hs : SnapshotDB.get_by_id _ _ = None |- _ =>
          rewrite Hs in Hstore end.
        done.
    + split; [done|]. split; [by eexists|].
      repeat split; intros; cbn [from_option id]; simplify_eq; try done;
      try congruence.
      * match goal with Hne : _ ≠ ∅ |- _ =>
          pose proof (dict_truthy_Some _ Hne) end.
        congruence.
      * specialize (Hstore _ eq_refl).
        match goal with Hs : SnapshotDB.get_by_id _ _ = Some _ |- _ =>
          rewrite Hs in Hstore end.
        injection Hstore as ->. by rewrite to_dict_truthy in Htruthy.
  - split; [done|]. split; [by eexists|].
    repeat split; intros; cbn [from_option id]; simplify_eq; try done;
      try congruence.
    specialize (Hstore _ eq_refl).
    match goal with Hs : SnapshotDB.get_by_id _ _ = Some _ |- _ =>
      rewrite Hs in Hstore end.
    done.
Qed.

Lemma C9_witness :
  load_snapshot_by_id (B := demo_builtins)
    (SnapshotDB.get_snapshot_by_id demo_store) (py "2")
  = [ VStr (py "Capital"); VStr (py "What is the capital of France?");
      VStr demo_system_prompt; VStr gemini; VStr demo_cot_prompt;
      VStr (py "Paris"); VStr (py "France is a country in Europe.");
      VStr (py "No doubt here."); VStr (py "Paris");
      VStr (check_mark ++ py " Snapshot loaded successfully") ] ∧
  load_snapshot_by_id (B := demo_builtins)
    (SnapshotDB.get_snapshot_by_id demo_store) (py "abc")
  = none9 ++ [VStr (py "Invalid Snapshot ID. Please enter a numeric ID.")] ∧
  load_snapshot_by_id (B := demo_builtins)
    (SnapshotDB.get_snapshot_by_id demo_store) (py "9")
  = none9 ++ [VStr (py "Snapshot not found")] ∧
  load_snapshot_by_id (B := demo_builtins)
    (SnapshotDB.get_snapshot_by_id demo_store) []
  = none9 ++ [VStr (py "Please enter a snapshot ID to load")].
Proof.
  split; [|split; [|split]].
  - pose proof (C9_load_snapshot_by_id_cases (B := demo_builtins)
                  (SnapshotDB.get_snapshot_by_id demo_store) (py "2"))
      as (_ & _ & _ & _ & _ & _ & _ & Hfound & _).
    apply (Hfound demo_store 2%Z
             {| SnapshotDB.id := 2; SnapshotDB.created_at := 200;
                SnapshotDB.fields := other_fields |}).
    + reflexivity.
    + discriminate.
    + vm_compute. reflexivity.
    + vm_compute. reflexivity.
  - pose proof (C9_load_snapshot_by_id_cases (B := demo_builtins)
                  (SnapshotDB.get_snapshot_by_id demo_store) (py "abc"))
      as (_ & _ & _ & Hinvalid & _).
    apply Hinvalid.
    + discriminate.
    + vm_compute. reflexivity.
  - pose proof (C9_load_snapshot_by_id_cases (B := demo_builtins)
                  (SnapshotDB.get_snapshot_by_id demo_store) (py "9"))
      as (_ & _ & _ & _ & Hmissing & _).
    apply (Hmissing 9%Z).
    + discriminate.
    + vm_compute. reflexivity.
    + vm_compute. reflexivity.
  - pose proof (C9_load_snapshot_by_id_cases (B := demo_builtins)
                  (SnapshotDB.get_snapshot_by_id demo_store) [])
      as (_ & _ & Hempty & _).
    apply Hempty. reflexivity.
Defined.

Lemma C10_witness :
  user_prompt_output
    {| user_prompt_output := question_2_plus_2;
       initial_response_output := py "4";
       thinking_output := [];
       reflection_output := [];
       final_output := [];
       system_prompt_value := Some demo_system_prompt;
       cot_prompt_value := None |}
  = question_2_plus_2.
Proof.
  apply (proj2 (C10_user_prompt_echoed (W := demo_world) None question_2_plus_2
                  demo_system_prompt demo_cot_prompt gemini false []))
    with (h' := [EvModelResponse gemini
                   (direct_response_prompt demo_system_prompt [] question_2_plus_2)]).
  vm_compute. reflexivity.
Defined.

(** The reasoned scenario: both calls are made, and the thinking component
    is the trimmed inside of the tag. *)
Example reasoned_scenario :
  process_question (W := demo_world) None question_2_plus_2 demo_system_prompt
    demo_cot_prompt gemini true []
  = (inr {| user_prompt_output := question_2_plus_2;
            initial_response_output := py "4";
            thinking_output := py "because arithmetic";
            reflection_output := py "The sum was checked.";
            final_output := py "The answer is 4.";
            system_prompt_value := Some demo_system_prompt;
            cot_prompt_value := Some demo_cot_prompt |},
     [ EvModelResponse gemini
         (initial_response_prompt demo_system_prompt [] question_2_plus_2);
       EvCotReflection demo_system_prompt demo_cot_prompt question_2_plus_2
         None gemini ]).
Proof. vm_compute. reflexivity. Qed.

(** The demo store lists newest first, and a term found only in one
    record's tags selects that record. *)
Example list_demo_store :
  SnapshotDB.id <$> SnapshotDB.list_snapshots demo_store [] = [2%Z; 1%Z] ∧
  SnapshotDB.id <$> SnapshotDB.list_snapshots demo_store (py "GEOgraphy") = [2%Z] ∧
  SnapshotDB.id <$> SnapshotDB.list_snapshots demo_store (py "what is") = [2%Z; 1%Z] ∧
  SnapshotDB.id <$> SnapshotDB.list_snapshots demo_store (py "zebra") = [].
Proof. vm_compute. repeat split; reflexivity. Qed.

(** ** More about the pipeline *)

Section PipelineMore.
Context `{W : World}.
Implicit Types (file : option bytes) (h : list event).
Implicit Types (user_prompt system_prompt cot_prompt selected_model : pystr).

(** A reasoned run on a registered model whose two outside calls answer:
    the model is asked first, the chain-of-thought call comes second and
    sees the first call in its history, and the tuple carries the first
    answer, the extracted thinking, the reflection, the output and both
    prompts. *)
Theorem reasoned_mode_two_calls
    file user_prompt system_prompt cot_prompt selected_model h
    (document_content : option pystr) (hd : list event)
    (initial_response thinking reflection output : pystr) :
  let p := initial_response_prompt system_prompt
             (doc_content_of document_content) user_prompt in
  let ev1 := EvModelResponse selected_model p in
  let ev2 := EvCotReflection system_prompt cot_prompt user_prompt
               document_content selected_model in
  selected_model ∈ dom AVAILABLE_MODELS →
  read_document_content file h = (inr document_content, hd) →
  get_model_response hd selected_model p = inr initial_response →
  cot_reflection (hd ++ [ev1]) system_prompt cot_prompt user_prompt
    document_content selected_model = inr (thinking, reflection, output) →
  process_question file user_prompt system_prompt cot_prompt selected_model
    true h
  = (inr {| user_prompt_output := user_prompt;
            initial_response_output := initial_response;
            thinking_output := actual_thinking thinking;
            reflection_output := reflection;
            final_output := output;
            system_prompt_value := Some system_prompt;
            cot_prompt_value := Some cot_prompt |},
     hd ++ [ev1; ev2]) ∧
  filter (λ ev, is_backend_event ev = true)
    (new_events (process_question file user_prompt system_prompt cot_prompt
                   selected_model true) h)
  = [ev1; ev2].
Proof.
  intros p ev1 ev2 Hm Hdoc Hresp Hcot.
  match goal with |- ?lhs = ?rhs ∧ _ => assert (Hpq : lhs = rhs) end.
  { rewrite process_question_of_body, process_question_body_unfold.
    destruct (decide (selected_model ∈ dom AVAILABLE_MODELS)); [|done].
    rewrite Hdoc. cbn zeta. fold p. rewrite Hresp. fold ev1. by rewrite Hcot. }
  split; [exact Hpq|].
  destruct (read_document_content_events _ _ _ _ Hdoc) as (evs & -> & Hevs).
  erewrite new_events_app; [|rewrite Hpq; simpl; by rewrite <- app_assoc].
  by rewrite filter_app, Hevs.
Qed.

(** A file the PDF parser reads with a non-empty text: the DOCX parser is
    not tried, and the direct prompt carries the pages, joined by
    newlines, in a "Document Content:" block between the system prompt
    and the question. *)
Theorem pdf_text_in_direct_prompt
    (f : bytes) user_prompt system_prompt cot_prompt selected_model h
    (pages : list pystr) (c : N) (text response : pystr) :
  let p := system_prompt ++ nl ++ nl
           ++ (py "Document Content:" ++ nl ++ (c :: text) ++ nl ++ nl)
           ++ py "Question: " ++ user_prompt ++ nl ++ nl
           ++ py "Analyze the question and provide a comprehensive answer." in
  selected_model ∈ dom AVAILABLE_MODELS →
  PdfReader_pages f = inr pages →
  join nl pages = c :: text →
  get_model_response (h ++ [EvPdfReader f]) selected_model p = inr response →
  process_question (Some f) user_prompt system_prompt cot_prompt
    selected_model false h
  = (inr {| user_prompt_output := user_prompt;
            initial_response_output := response;
            thinking_output := [];
            reflection_output := [];
            final_output := [];
            system_prompt_value := Some system_prompt;
            cot_prompt_value := None |},
     h ++ [EvPdfReader f; EvModelResponse selected_model p]).
Proof.
  intros p Hm Hpdf Hjoin Hresp.
  rewrite process_question_of_body, process_question_body_unfold.
  destruct (decide (selected_model ∈ dom AVAILABLE_MODELS)); [|done].
  rewrite read_document_content_Some, Hpdf, Hjoin. cbn zeta.
  unfold direct_response_prompt, doc_content_of. fold p.
  rewrite Hresp. by rewrite <- app_assoc.
Qed.

(** A file the PDF parser rejects and the DOCX parser reads with a
    non-empty text: the PDF error is dropped, the run succeeds, and the
    direct prompt carries the paragraphs, joined by newlines. *)
Theorem docx_fallback_in_direct_prompt
    (f : bytes) user_prompt system_prompt cot_prompt selected_model h
    (e : exn) (paragraphs : list pystr) (c : N) (text response : pystr) :
  let p := system_prompt ++ nl ++ nl
           ++ (py "Document Content:" ++ nl ++ (c :: text) ++ nl ++ nl)
           ++ py "Question: " ++ user_prompt ++ nl ++ nl
           ++ py "Analyze the question and provide a comprehensive answer." in
  selected_model ∈ dom AVAILABLE_MODELS →
  PdfReader_pages f = inl e →
  Document_paragraphs f = inr paragraphs →
  join nl paragraphs = c :: text →
  get_model_response (h ++ [EvPdfReader f; EvDocument f]) selected_model p
    = inr response →
  process_question (Some f) user_prompt system_prompt cot_prompt
    selected_model false h
  = (inr {| user_prompt_output := user_prompt;
            initial_response_output := response;
            thinking_output := [];
            reflection_output := [];
            final_output := [];
            system_prompt_value := Some system_prompt;
            cot_prompt_value := None |},
     h ++ [EvPdfReader f; EvDocument f; EvModelResponse selected_model p]).
Proof.
  intros p Hm Hpdf Hdocx Hjoin Hresp.
  rewrite process_question_of_body, process_question_body_unfold.
  destruct (decide (selected_model ∈ dom AVAILABLE_MODELS)); [|done].
  rewrite read_document_content_Some, Hpdf, Hdocx, Hjoin. cbn zeta.
  unfold direct_response_prompt, doc_content_of. fold p.
  rewrite Hresp. by rewrite <- app_assoc.
Qed.

(** A file that parses to the empty text: the prompts are those of a run
    without a file (no "Document Content:" block), yet the
    chain-of-thought call is handed the empty text, not [None]. *)
Theorem empty_document_leaves_prompt_bare
    (f : bytes) user_prompt system_prompt cot_prompt selected_model h
    (pages : list pystr) :
  selected_model ∈ dom AVAILABLE_MODELS →
  PdfReader_pages f = inr pages →
  join nl pages = [] →
  filter (λ ev, is_backend_event ev = true)
    (new_events (process_question (Some f) user_prompt system_prompt
                   cot_prompt selected_model false) h)
  = [EvModelResponse selected_model
       (direct_response_prompt system_prompt (doc_content_of None) user_prompt)] ∧
  (∀ initial_response,
     get_model_response (h ++ [EvPdfReader f]) selected_model
       (initial_response_prompt system_prompt (doc_content_of None) user_prompt)
       = inr initial_response →
     filter (λ ev, is_backend_event ev = true)
       (new_events (process_question (Some f) user_prompt system_prompt
                      cot_prompt selected_model true) h)
     = [EvModelResponse selected_model
          (initial_response_prompt system_prompt (doc_content_of None)
             user_prompt);
        EvCotReflection system_prompt cot_prompt user_prompt (Some [])
          selected_model]).
Proof.
  intros Hm Hpdf Hjoin. split.
  - rewrite (new_events_app _ h
               [EvPdfReader f;
                EvModelResponse selected_model
                  (direct_response_prompt system_prompt (doc_content_of None)
                     user_prompt)]); [done|].
    rewrite process_question_of_body, process_question_body_unfold.
    destruct (decide (selected_model ∈ dom AVAILABLE_MODELS)); [|done].
    rewrite read_document_content_Some, Hpdf, Hjoin. cbn zeta.
    change (doc_content_of (Some [])) with (doc_content_of None).
    destruct (get_model_response _ _ _); simpl; by rewrite <- app_assoc.
  - intros initial_response Hresp.
    rewrite (new_events_app _ h
               [EvPdfReader f;
                EvModelResponse selected_model
                  (initial_response_prompt system_prompt (doc_content_of None)
                     user_prompt);
                EvCotReflection system_prompt cot_prompt user_prompt (Some [])
                  selected_model]); [done|].
    rewrite process_question_of_body, process_question_body_unfold.
    destruct (decide (selected_model ∈ dom AVAILABLE_MODELS)); [|done].
    rewrite read_document_content_Some, Hpdf, Hjoin. cbn zeta.
    change (doc_content_of (Some [])) with (doc_content_of None).
    rewrite Hresp.
    destruct (cot_reflection _ _ _ _ _ _) as [?|[[??]?]]; simpl;
      by rewrite <- app_assoc.
Qed.

Lemma process_question_body_success
    file user_prompt system_prompt cot_prompt selected_model
    (use_default_cot : bool) h (out : Outputs) (h' : list event) :
  process_question_body file user_prompt system_prompt cot_prompt
    selected_model use_default_cot h = (inr out, h') →
  system_prompt_value out = Some system_prompt ∧
  cot_prompt_value out = (if use_default_cot then Some cot_prompt else None).
Proof.
  rewrite process_question_body_unfold.
  destruct (decide (selected_model ∈ dom AVAILABLE_MODELS)); [|done].
  destruct (read_document_content file h) as [[err|document_content] hd];
    [done|].
  destruct use_default_cot; cbn zeta.
  - destruct (get_model_response hd selected_model _); [done|].
    destruct (cot_reflection _ _ _ _ _ _) as [?|[[??]?]]; [done|].
    by intros [= <- _].
  - destruct (get_model_response hd selected_model _); [done|].
    by intros [= <- _].
Qed.

(** The sixth component tells failure from success: it is [None] exactly
    when an exception was caught, and otherwise it is the system prompt
    that was passed in, with the seventh component the chain-of-thought
    prompt in reasoned mode and [None] in direct mode. *)
Theorem failure_shows_as_missing_system_prompt
    file user_prompt system_prompt cot_prompt selected_model
    (use_default_cot : bool) h (out : Outputs) (h' : list event) :
  process_question file user_prompt system_prompt cot_prompt selected_model
    use_default_cot h = (inr out, h') →
  (system_prompt_value out = None ↔
   ∃ e, process_question_body file user_prompt system_prompt cot_prompt
          selected_model use_default_cot h = (inl e, h')) ∧
  (system_prompt_value out ≠ None →
   system_prompt_value out = Some system_prompt ∧
   cot_prompt_value out = (if use_default_cot then Some cot_prompt else None) ∧
   process_question_body file user_prompt system_prompt cot_prompt
     selected_model use_default_cot h = (inr out, h')).
Proof.
  rewrite process_question_of_body.
  destruct (process_question_body file user_prompt system_prompt cot_prompt
              selected_model use_default_cot h) as [[e|o] hb] eqn:Hbody.
  - intros [= <- <-]. split; [split; [by eauto | done] | done].
  - intros [= <- <-].
    destruct (process_question_body_success _ _ _ _ _ _ _ _ _ Hbody)
      as [Hsys Hcot].
    split.
    + split; [by rewrite Hsys | by intros [e [=]]].
    + by intros _.
Qed.

(** What a run may do outside, whatever the inputs and the answers: at
    most the PDF parser and then the DOCX parser on the file that was
    passed, followed by at most the model call and then, in reasoned mode
    only, the chain-of-thought call; nothing of the earlier history is
    dropped. *)
Theorem outside_calls_bounded
    file user_prompt system_prompt cot_prompt selected_model
    (use_default_cot : bool) h :
  ∃ docs backs,
    snd (process_question file user_prompt system_prompt cot_prompt
           selected_model use_default_cot h) = h ++ docs ++ backs ∧
    (docs = [] ∨
     ∃ f, file = Some f ∧
          (docs = [EvPdfReader f] ∨ docs = [EvPdfReader f; EvDocument f])) ∧
    (backs = [] ∨
     (∃ p, backs = [EvModelResponse selected_model p]) ∨
     (use_default_cot = true ∧
      ∃ p document_content,
        backs = [EvModelResponse selected_model p;
                 EvCotReflection system_prompt cot_prompt user_prompt
                   document_content selected_model])).
Proof.
  rewrite process_question_of_body, process_question_body_unfold.
  destruct (decide (selected_model ∈ dom AVAILABLE_MODELS)).
  2: { exists [], []. simpl. rewrite app_nil_r. by eauto. }
  assert (Hdocs : ∃ docs,
    snd (read_document_content file h) = h ++ docs ∧
    (docs = [] ∨
     ∃ f, file = Some f ∧
          (docs = [EvPdfReader f] ∨ docs = [EvPdfReader f; EvDocument f]))).
  { destruct file as [f|].
    - rewrite read_document_content_Some.
      destruct (PdfReader_pages f); [destruct (Document_paragraphs f)|];
        simpl; eexists; (split; [reflexivity|]); right; exists f; by eauto.
    - exists []. simpl. rewrite app_nil_r. by eauto. }
  destruct Hdocs as (docs & Hsnd & Hshape).
  destruct (read_document_content file h) as [[err|document_content] hd];
    simpl in Hsnd; subst hd.
  { exists docs, []. simpl. rewrite app_nil_r. by eauto. }
  exists docs. destruct use_default_cot; cbn zeta.
  - destruct (get_model_response _ selected_model _).
    + eexists. simpl. rewrite <- app_assoc. split; [reflexivity|].
      split; [exact Hshape|]. right. left. by eauto.
    + destruct (cot_reflection _ _ _ _ _ _) as [?|[[??]?]];
        eexists; simpl; rewrite <- app_assoc;
        (split; [reflexivity|]); (split; [exact Hshape|]);
        right; right; by eauto.
  - destruct (get_model_response _ selected_model _);
      eexists; simpl; rewrite <- app_assoc;
      (split; [reflexivity|]); (split; [exact Hshape|]);
      right; left; by eauto.
Qed.

(** The models the dropdown offers are each listed once and are exactly
    the models [process_question] lets through its first check: a run
    reaches a parser or a backend if and only if its model is offered. *)
Theorem offered_models_are_the_accepted_ones
    file user_prompt system_prompt cot_prompt selected_model
    (use_default_cot : bool) h :
  NoDup get_available_models ∧
  (selected_model ∈ get_available_models ↔
   new_events (process_question file user_prompt system_prompt cot_prompt
                 selected_model use_default_cot) h ≠ []).
Proof.
  unfold get_available_models. split; [apply NoDup_elements|].
  rewrite elem_of_elements. split.
  - intros Hm.
    assert (∃ ev evs,
      snd (process_question file user_prompt system_prompt cot_prompt
             selected_model use_default_cot h) = h ++ ev :: evs)
      as (ev & evs & Hsnd).
    { rewrite process_question_of_body, process_question_body_unfold.
      destruct (decide (selected_model ∈ dom AVAILABLE_MODELS)); [|done].
      destruct file as [f|].
      - destruct (read_document_content_events (Some f) h
                    (fst (read_document_content (Some f) h))
                    (snd (read_document_content (Some f) h)))
          as (docs & Hhd & _); [by destruct (read_document_content _ _)|].
        assert (∃ d ds, docs = d :: ds) as (d & ds & ->).
        { rewrite read_document_content_Some in Hhd.
          destruct (PdfReader_pages f); [destruct (Document_paragraphs f)|];
            simpl in Hhd; apply app_inv_head in Hhd; subst docs; by eauto. }
        destruct (read_document_content (Some f) h)
          as [[err|document_content] hd]; simpl in Hhd; subst hd.
        { by eauto. }
        destruct use_default_cot; cbn zeta.
        + destruct (get_model_response _ selected_model _);
            [simpl; rewrite <- app_assoc; by eauto|].
          destruct (cot_reflection _ _ _ _ _ _) as [?|[[??]?]];
            simpl; rewrite <- app_assoc; by eauto.
        + destruct (get_model_response _ selected_model _);
            simpl; rewrite <- app_assoc; by eauto.
      - simpl read_document_content. unfold ret.
        destruct use_default_cot; cbn zeta.
        + destruct (get_model_response _ selected_model _); [by eauto|].
          destruct (cot_reflection _ _ _ _ _ _) as [?|[[??]?]]; by eauto.
        + destruct (get_model_response _ selected_model _); by eauto. }
    by rewrite (new_events_app _ _ _ Hsnd).
  - intros Hev. destruct (decide (selected_model ∈ dom AVAILABLE_MODELS))
      as [Hm|Hm]; [done|].
    exfalso. apply Hev. apply new_events_app.
    rewrite process_question_of_body, process_question_body_unfold.
    destruct (decide (selected_model ∈ dom AVAILABLE_MODELS)); [done|].
    simpl. by rewrite app_nil_r.
Qed.
End PipelineMore.

(** ** More about the tag extractor *)

Lemma match_literal_head_ne (a c : N) (lit s : pystr) :
  c ≠ a → match_literal (a :: lit) (c :: s) = None.
Proof. intros Hne. simpl. destruct (decide (a = c)); [congruence | done]. Qed.

Lemma re_search_skip (a : N) (opn cls pre s : pystr) :
  Forall (λ c, c ≠ a) pre →
  re_search (a :: opn) cls (pre ++ s) = re_search (a :: opn) cls s.
Proof.
  induction 1 as [|c pre Hc _ IH]; [done|].
  cbn [app re_search]. unfold match_here at 1.
  by rewrite match_literal_head_ne.
Qed.

Lemma lazy_dotall_until_plain (a : N) (cls inner post : pystr) :
  Forall (λ c, c ≠ a) inner →
  lazy_dotall_until (a :: cls) (inner ++ a :: cls ++ post) = Some inner.
Proof.
  induction 1 as [|c inner Hc _ IH].
  - cbn [app lazy_dotall_until].
    change (a :: cls ++ post) with ((a :: cls) ++ post).
    by rewrite match_literal_app.
  - cbn [app lazy_dotall_until].
    rewrite match_literal_head_ne; [|done]. by rewrite IH.
Qed.

Lemma thinking_open_head : thinking_open = lt_sign :: py "thinking>".
Proof. reflexivity. Qed.

Lemma thinking_close_head : thinking_close = lt_sign :: py "/thinking>".
Proof. reflexivity. Qed.

(** When neither the text before the opening tag nor the text inside the
    tags holds a [<], the extraction finds the span and returns its
    inside, trimmed, whatever follows the closing tag. *)
Theorem extraction_between_plain_text (pre inner post : pystr) :
  Forall (λ c, c ≠ lt_sign) pre →
  Forall (λ c, c ≠ lt_sign) inner →
  extract_thinking (pre ++ thinking_open ++ inner ++ thinking_close ++ post)
  = (strip inner, true).
Proof.
  intros Hpre Hinner.
  assert (Hm : thinking_match
                 (pre ++ thinking_open ++ inner ++ thinking_close ++ post)
               = Some inner).
  { unfold thinking_match. rewrite thinking_open_head at 1.
    rewrite re_search_skip; [|done].
    rewrite <- thinking_open_head.
    assert (Hhere : match_here thinking_open thinking_close
                      (thinking_open ++ inner ++ thinking_close ++ post)
                    = Some inner).
    { unfold match_here. rewrite match_literal_app.
      rewrite thinking_close_head.
      change ((lt_sign :: py "/thinking>") ++ post)
        with (lt_sign :: py "/thinking>" ++ post).
      by apply lazy_dotall_until_plain. }
    destruct (thinking_open ++ inner ++ thinking_close ++ post) eqn:E;
      cbn [re_search]; by rewrite Hhere. }
  unfold extract_thinking, actual_thinking. by rewrite Hm.
Qed.

(** The extracted thinking is always a contiguous part of the text it was
    extracted from: the extraction adds nothing. *)
Theorem extracted_thinking_is_part_of_text (text : pystr) :
  occurs_in (actual_thinking text) text ∧
  (length (actual_thinking text) ≤ length text)%nat.
Proof.
  assert (Hocc : occurs_in (actual_thinking text) text).
  { unfold actual_thinking, thinking_match.
    destruct (re_search thinking_open thinking_close text) as [g|] eqn:E.
    - destruct (re_search_Some _ _ _ _ E) as (pre & post & Hs & _).
      destruct (strip_spec g) as (l & r & Hg & _).
      exists (pre ++ thinking_open ++ l), (r ++ thinking_close ++ post).
      unfold is_span in Hs. rewrite Hs. rewrite Hg at 1.
      by rewrite <- !app_assoc.
    - exists [], []. by rewrite app_nil_r. }
  split; [exact Hocc|].
  destruct Hocc as (a & b & Heq). rewrite Heq at 2.
  rewrite !length_app. lia.
Qed.

(** When a span is found, neither its inside nor the trimmed text that is
    returned holds a closing tag: the match stops at the first one. *)
Theorem extracted_thinking_has_no_closing_tag (text g : pystr) :
  thinking_match text = Some g →
  ¬ occurs_in thinking_close g ∧
  ¬ occurs_in thinking_close (actual_thinking text).
Proof.
  intros Hm.
  assert (Hg : ¬ occurs_in thinking_close g).
  { intros (a & b & Hab).
    destruct (re_search_Some _ _ _ _ Hm) as (pre & post & Hs & Hfirst).
    destruct (Hfirst pre a (b ++ thinking_close ++ post)) as [_ Hlen].
    { unfold is_span in *. rewrite Hs, Hab. by rewrite <- !app_assoc. }
    specialize (Hlen eq_refl). rewrite Hab, !length_app in Hlen.
    assert (0 < length thinking_close)%nat by (vm_compute; lia). lia. }
  split; [exact Hg|].
  unfold actual_thinking. rewrite Hm. intros (a & b & Hab). apply Hg.
  destruct (strip_spec g) as (l & r & Heq & _).
  exists (l ++ a), (b ++ r). rewrite Heq, Hab. by rewrite <- !app_assoc.
Qed.

(** ** More about the snapshot handlers *)

Section HandlersMore.
Context `{B : Builtins}.
Implicit Types (get : Z → exn + option dict).

(** [export_snapshot] never raises and answers by case: the identifier 0
    is refused without a look at the database; a database error or a
    failure of [json.dumps] comes back as "Error exporting snapshot: "
    and the exception text; a lookup that gives [None] or an empty
    dictionary gives "Snapshot not found"; otherwise the answer is the
    dump of the dictionary the database returned. *)
Theorem export_snapshot_cases get (snapshot_id : Z) :
  (snapshot_id = 0%Z →
   export_snapshot get snapshot_id = py "Please enter a snapshot ID to export") ∧
  (∀ e, snapshot_id ≠ 0%Z → get snapshot_id = inl e →
        export_snapshot get snapshot_id
        = py "Error exporting snapshot: " ++ str_exn e) ∧
  (snapshot_id ≠ 0%Z →
   get snapshot_id = inr None ∨ get snapshot_id = inr (Some ∅) →
   export_snapshot get snapshot_id = py "Snapshot not found") ∧
  (∀ d text, snapshot_id ≠ 0%Z → get snapshot_id = inr (Some d) → d ≠ ∅ →
             json_dumps d = inr text →
             export_snapshot get snapshot_id = text) ∧
  (∀ d e, snapshot_id ≠ 0%Z → get snapshot_id = inr (Some d) → d ≠ ∅ →
          json_dumps d = inl e →
          export_snapshot get snapshot_id
          = py "Error exporting snapshot: " ++ str_exn e).
Proof.
  unfold export_snapshot, export_snapshot_body.
  split; [|split; [|split; [|split]]].
  - intros ->. done.
  - intros e Hne Hget. destruct (decide (snapshot_id = 0%Z)); [done|].
    by rewrite Hget.
  - intros Hne Hget. destruct (decide (snapshot_id = 0%Z)); [done|].
    by destruct Hget as [-> | ->].
  - intros d text Hne Hget Hd Hdump.
    destruct (decide (snapshot_id = 0%Z)); [done|].
    rewrite Hget, dict_truthy_Some; [|done]. cbn [from_option id].
    by rewrite Hdump.
  - intros d e Hne Hget Hd Hdump.
    destruct (decide (snapshot_id = 0%Z)); [done|].
    rewrite Hget, dict_truthy_Some; [|done]. cbn [from_option id].
    by rewrite Hdump.
Qed.

(** [handle_export] shows the JSON panel exactly when it reports "Export
    successful", which is exactly when the identifier is a non-zero
    number and [json.loads] accepted the text [export_snapshot] returned;
    the panel then holds the parsed value, and holds nothing otherwise. *)
Theorem handle_export_panel_iff_success {J : Type}
    (json_loads : pystr → exn + J) get (snapshot_id : option Z) :
  let update := (handle_export json_loads get snapshot_id).1 in
  let status := (handle_export json_loads get snapshot_id).2 in
  (visible update = true ↔ status = py "Export successful") ∧
  (visible update = true ↔
   ∃ n parsed_json,
     snapshot_id = Some n ∧ n ≠ 0%Z ∧
     json_loads (export_snapshot get n) = inr parsed_json ∧
     value update = Some parsed_json) ∧
  (visible update = false → value update = None).
Proof.
  unfold handle_export.
  destruct snapshot_id as [n|].
  2: { cbn. split; [|split]; [split| |done].
       - done.
       - intros H. vm_compute in H. discriminate H.
       - split; [done | by intros (n & p & [=] & _)]. }
  destruct (decide (n = 0%Z)) as [->|Hn].
  { cbn. split; [|split]; [split| |done].
    - done.
    - intros H. vm_compute in H. discriminate H.
    - split; [done | by intros (n & p & [= <-] & Hn & _)]. }
  destruct (json_loads (export_snapshot get n)) as [e|parsed] eqn:Hloads.
  - cbn. split; [|split]; [split| |done].
    + done.
    + intros H. apply (f_equal (take 8)) in H. vm_compute in H. discriminate H.
    + split; [done|]. intros (n' & p & [= <-] & _ & Hl & _). congruence.
  - cbn. split; [|split]; [done| |done].
    split; [|done]. intros _. by exists n, parsed.
Qed.

(** For a snapshot the database does not have, [handle_export] does not
    show "Snapshot not found": it feeds that message to [json.loads],
    and reports the parser's complaint as "Export failed: ...". *)
Theorem handle_export_masks_not_found {J : Type}
    (json_loads : pystr → exn + J) get (n : Z) (e : exn) :
  n ≠ 0%Z →
  get n = inr None →
  json_loads (py "Snapshot not found") = inl e →
  handle_export json_loads get (Some n)
  = ({| visible := false; value := None |}, py "Export failed: " ++ str_exn e).
Proof.
  intros Hn Hget Hloads. unfold handle_export.
  destruct (decide (n = 0%Z)); [done|].
  assert (Hmissing : export_snapshot get n = py "Snapshot not found").
  { unfold export_snapshot, export_snapshot_body.
    destruct (decide (n = 0%Z)); [done|]. by rewrite Hget. }
  by rewrite Hmissing, Hloads.
Qed.

(** [load_snapshot_by_id] ends in the success message exactly when the
    string is non-empty, [int] accepts it and the database returns a
    non-empty dictionary for that number; in every other case all nine
    value slots are [None]. *)
Theorem load_success_iff get (snapshot_id : pystr) :
  let result := load_snapshot_by_id get snapshot_id in
  (last result = Some (VStr loaded_message) ↔
   ∃ n d, snapshot_id ≠ [] ∧ int_of_str snapshot_id = Some n ∧
          get n = inr (Some d) ∧ d ≠ ∅) ∧
  (last result ≠ Some (VStr loaded_message) → take 9 result = none9).
Proof.
  unfold load_snapshot_by_id, load_snapshot_by_id_body.
  destruct snapshot_id as [|c sid].
  { cbn zeta. split; [|done]. split.
    - intros H. vm_compute in H. discriminate H.
    - by intros (n & d & Hne & _). }
  destruct (int_of_str (c :: sid)) as [n|] eqn:Hint.
  2: { cbn zeta. split; [|done]. split.
       - intros H. vm_compute in H. discriminate H.
       - by intros (n & d & _ & [=] & _). }
  destruct (get n) as [e|[d|]] eqn:Hget.
  - cbn zeta. split; [|done]. split.
    + intros H. rewrite last_snoc in H.
      apply (f_equal (λ v, match v with
                           | Some (VStr (c :: _)) => c
                           | _ => 0
                           end)) in H.
      vm_compute in H. discriminate H.
    + intros (n' & d & _ & [= <-] & Hd & _). congruence.
  - destruct (dict_truthy (Some d)) eqn:Htruthy.
    + cbn zeta. split; [|done]. split; [|done].
      intros _. exists n, d. repeat split; try done.
      intros ->. vm_compute in Htruthy. discriminate Htruthy.
    + cbn zeta. split; [|done]. split.
      * intros H. vm_compute in H. discriminate H.
      * intros (n' & d' & _ & [= <-] & Hd & Hne).
        assert (d' = d) as -> by congruence.
        by rewrite dict_truthy_Some in Htruthy.
  - cbn zeta. split; [|done]. split.
    + intros H. vm_compute in H. discriminate H.
    + intros (n' & d & _ & [= <-] & Hd & _). congruence.
Qed.

(** The nine keys [load_snapshot_by_id] reads are the first nine keys the
    save button writes, in the same order: when the database returns, for
    the number asked, a dictionary that holds what the save button stored
    (and possibly more keys), loading gives back the first nine saved
    values followed by the success message. *)
Theorem load_returns_what_save_stored get (snapshot_id : pystr) (n : Z)
    (a0 a1 a2 a3 a4 a5 a6 a7 a8 a9 : pyval) (d : dict) :
  snapshot_id ≠ [] →
  int_of_str snapshot_id = Some n →
  get n = inr (Some d) →
  save_args_dict a0 a1 a2 a3 a4 a5 a6 a7 a8 a9 ⊆ d →
  load_snapshot_by_id get snapshot_id
  = [a0; a1; a2; a3; a4; a5; a6; a7; a8; VStr loaded_message].
Proof.
  intros Hne Hint Hget Hsub.
  assert (Hkey : ∀ k v,
    save_args_dict a0 a1 a2 a3 a4 a5 a6 a7 a8 a9 !! k = Some v →
    dict_get d k = v).
  { intros k v Hk. unfold dict_get.
    by rewrite (lookup_weaken _ _ _ _ Hk Hsub). }
  assert (Hd : d ≠ ∅).
  { intros ->.
    assert (Hk : save_args_dict a0 a1 a2 a3 a4 a5 a6 a7 a8 a9 !! py "tags"
                 = Some a9) by (vm_compute; reflexivity).
    pose proof (lookup_weaken _ _ _ _ Hk Hsub) as Hk'.
    by rewrite lookup_empty in Hk'. }
  unfold load_snapshot_by_id, load_snapshot_by_id_body.
  destruct snapshot_id as [|c sid]; [done|].
  rewrite Hint, Hget, dict_truthy_Some; [|done]. cbn [from_option id].
  rewrite (Hkey (py "snapshot_name") a0), (Hkey (py "user_prompt") a1),
    (Hkey (py "system_prompt") a2), (Hkey (py "model_name") a3),
    (Hkey (py "cot_prompt") a4), (Hkey (py "initial_response") a5),
    (Hkey (py "thinking") a6), (Hkey (py "reflection") a7),
    (Hkey (py "final_response") a8); by vm_compute.
Qed.
End HandlersMore.

(** In reasoned mode, when the first model call raises, the
    chain-of-thought call is never made: the run ends with the error
    tuple after that single backend call. *)
Theorem first_call_failure_skips_chain_of_thought `{W : World}
    (file : option bytes)
    (user_prompt system_prompt cot_prompt selected_model : pystr)
    (h : list event) (document_content : option pystr) (hd : list event)
    (e : exn) :
  let p := initial_response_prompt system_prompt
             (doc_content_of document_content) user_prompt in
  selected_model ∈ dom AVAILABLE_MODELS →
  read_document_content file h = (inr document_content, hd) →
  get_model_response hd selected_model p = inl e →
  process_question file user_prompt system_prompt cot_prompt selected_model
    true h
  = (inr (error_outputs user_prompt e),
     hd ++ [EvModelResponse selected_model p]) ∧
  filter (λ ev, is_backend_event ev = true)
    (new_events (process_question file user_prompt system_prompt cot_prompt
                   selected_model true) h)
  = [EvModelResponse selected_model p].
Proof.
  intros p Hm Hdoc Hresp.
  match goal with |- ?lhs = ?rhs ∧ _ => assert (Hpq : lhs = rhs) end.
  { rewrite process_question_of_body, process_question_body_unfold.
    destruct (decide (selected_model ∈ dom AVAILABLE_MODELS)); [|done].
    rewrite Hdoc. cbn zeta. fold p. by rewrite Hresp. }
  split; [exact Hpq|].
  destruct (read_document_content_events _ _ _ _ Hdoc) as (evs & -> & Hevs).
  erewrite new_events_app; [|rewrite Hpq; simpl; by rewrite <- app_assoc].
  by rewrite filter_app, Hevs.
Qed.

(** ** Instances of the statements above *)

Lemma gemini_registered_pdf :
  gemini ∈ dom (AVAILABLE_MODELS (World := pdf_world)).
Proof. refine (bool_decide_unpack _ _). vm_compute. exact I. Defined.

Lemma gemini_registered_docx :
  gemini ∈ dom (AVAILABLE_MODELS (World := docx_world)).
Proof. refine (bool_decide_unpack _ _). vm_compute. exact I. Defined.

Lemma gemini_registered_blank :
  gemini ∈ dom (AVAILABLE_MODELS (World := blank_world)).
Proof. refine (bool_decide_unpack _ _). vm_compute. exact I. Defined.

Lemma reasoned_mode_two_calls_witness :
  filter (λ ev, is_backend_event ev = true)
    (new_events (process_question (W := demo_world) None question_2_plus_2
                   demo_system_prompt demo_cot_prompt gemini true) [])
  = [ EvModelResponse gemini
        (initial_response_prompt demo_system_prompt (doc_content_of None)
           question_2_plus_2);
      EvCotReflection demo_system_prompt demo_cot_prompt question_2_plus_2
        None gemini ].
Proof.
  apply (reasoned_mode_two_calls (W := demo_world) None question_2_plus_2
           demo_system_prompt demo_cot_prompt gemini [] None []
           (py "4") scenario_response (py "The sum was checked.")
           (py "The answer is 4.")).
  - exact gemini_registered.
  - reflexivity.
  - reflexivity.
  - reflexivity.
Defined.

Lemma pdf_text_in_direct_prompt_witness :
  ∃ p,
    process_question (W := pdf_world) (Some some_file) question_2_plus_2
      demo_system_prompt demo_cot_prompt gemini false []
    = (inr {| user_prompt_output := question_2_plus_2;
              initial_response_output := py "4";
              thinking_output := [];
              reflection_output := [];
              final_output := [];
              system_prompt_value := Some demo_system_prompt;
              cot_prompt_value := None |},
       [] ++ [EvPdfReader some_file; EvModelResponse gemini p]).
Proof.
  eexists.
  apply (pdf_text_in_direct_prompt (W := pdf_world) some_file
           question_2_plus_2 demo_system_prompt demo_cot_prompt gemini []
           two_pages 112 (py "age one" ++ nl ++ py "page two") (py "4")).
  - exact gemini_registered_pdf.
  - reflexivity.
  - vm_compute. reflexivity.
  - reflexivity.
Defined.

Lemma docx_fallback_in_direct_prompt_witness :
  ∃ p,
    process_question (W := docx_world) (Some some_file) question_2_plus_2
      demo_system_prompt demo_cot_prompt gemini false []
    = (inr {| user_prompt_output := question_2_plus_2;
              initial_response_output := py "4";
              thinking_output := [];
              reflection_output := [];
              final_output := [];
              system_prompt_value := Some demo_system_prompt;
              cot_prompt_value := None |},
       [] ++ [EvPdfReader some_file; EvDocument some_file;
              EvModelResponse gemini p]).
Proof.
  eexists.
  apply (docx_fallback_in_direct_prompt (W := docx_world) some_file
           question_2_plus_2 demo_system_prompt demo_cot_prompt gemini []
           unreadable [py "first paragraph"] 102 (py "irst paragraph") (py "4")).
  - exact gemini_registered_docx.
  - reflexivity.
  - reflexivity.
  - vm_compute. reflexivity.
  - reflexivity.
Defined.

Lemma empty_document_leaves_prompt_bare_witness :
  filter (λ ev, is_backend_event ev = true)
    (new_events (process_question (W := blank_world) (Some some_file)
                   question_2_plus_2 demo_system_prompt demo_cot_prompt
                   gemini false) [])
  = [EvModelResponse gemini
       (direct_response_prompt demo_system_prompt (doc_content_of None)
          question_2_plus_2)].
Proof.
  apply (empty_document_leaves_prompt_bare (W := blank_world) some_file
           question_2_plus_2 demo_system_prompt demo_cot_prompt gemini [] []).
  - exact gemini_registered_blank.
  - reflexivity.
  - reflexivity.
Defined.

Lemma failure_shows_as_missing_system_prompt_witness :
  system_prompt_value
    (error_outputs question_2_plus_2 (invalid_model_error (py "GPT-9"))) = None
  ↔ ∃ e,
      process_question_body (W := demo_world) None question_2_plus_2
        demo_system_prompt demo_cot_prompt (py "GPT-9") true []
      = (inl e, []).
Proof.
  apply (failure_shows_as_missing_system_prompt (W := demo_world) None
           question_2_plus_2 demo_system_prompt demo_cot_prompt (py "GPT-9")
           true []).
  vm_compute. reflexivity.
Defined.

Lemma offered_models_witness :
  gemini ∈ get_available_models (W := demo_world).
Proof.
  apply (offered_models_are_the_accepted_ones (W := demo_world) None
           question_2_plus_2 demo_system_prompt demo_cot_prompt gemini false []).
  vm_compute. discriminate.
Defined.

Lemma first_call_failure_witness :
  filter (λ ev, is_backend_event ev = true)
    (new_events (process_question (W := failing_world) None question_2_plus_2
                   demo_system_prompt demo_cot_prompt gemini true) [])
  = [EvModelResponse gemini
       (initial_response_prompt demo_system_prompt (doc_content_of None)
          question_2_plus_2)].
Proof.
  apply (first_call_failure_skips_chain_of_thought (W := failing_world) None
           question_2_plus_2 demo_system_prompt demo_cot_prompt gemini []
           None [] backend_down).
  - exact gemini_registered_failing.
  - reflexivity.
  - reflexivity.
Defined.

Lemma extraction_between_plain_text_witness :
  extract_thinking
    (py "Sure. " ++ thinking_open ++ py " because arithmetic "
     ++ thinking_close ++ py " <b>4</b>")
  = (strip (py " because arithmetic "), true).
Proof.
  apply (extraction_between_plain_text (py "Sure. ")
           (py " because arithmetic ") (py " <b>4</b>")).
  - refine (bool_decide_unpack _ _). vm_compute. exact I.
  - refine (bool_decide_unpack _ _). vm_compute. exact I.
Defined.

Lemma no_closing_tag_witness :
  ¬ occurs_in thinking_close (py "because arithmetic") ∧
  ¬ occurs_in thinking_close (actual_thinking scenario_response).
Proof.
  apply (extracted_thinking_has_no_closing_tag scenario_response
           (py "because arithmetic")).
  vm_compute. reflexivity.
Defined.

Lemma export_snapshot_cases_witness :
  export_snapshot (B := demo_builtins)
    (SnapshotDB.get_snapshot_by_id demo_store) 0
  = py "Please enter a snapshot ID to export" ∧
  export_snapshot (B := demo_builtins)
    (SnapshotDB.get_snapshot_by_id demo_store) 9
  = py "Snapshot not found" ∧
  export_snapshot (B := demo_builtins)
    (SnapshotDB.get_snapshot_by_id demo_store) 1
  = py "{}".
Proof.
  split; [|split].
  - apply (export_snapshot_cases (B := demo_builtins)
             (SnapshotDB.get_snapshot_by_id demo_store) 0).
    reflexivity.
  - apply (export_snapshot_cases (B := demo_builtins)
             (SnapshotDB.get_snapshot_by_id demo_store) 9).
    + discriminate.
    + left. vm_compute. reflexivity.
  - pose proof (export_snapshot_cases (B := demo_builtins)
                  (SnapshotDB.get_snapshot_by_id demo_store) 1)
      as (_ & _ & _ & Hfound & _).
    apply (Hfound (SnapshotDB.to_dict
                     {| SnapshotDB.id := 1; SnapshotDB.created_at := 100;
                        SnapshotDB.fields := demo_fields |})).
    + discriminate.
    + vm_compute. reflexivity.
    + apply map_size_non_empty_iff. vm_compute. discriminate.
    + reflexivity.
Defined.

Lemma handle_export_panel_witness :
  (handle_export (B := demo_builtins) demo_json_loads
     (SnapshotDB.get_snapshot_by_id demo_store) (Some 1%Z)).2
  = py "Export successful".
Proof.
  apply (handle_export_panel_iff_success (B := demo_builtins) demo_json_loads
           (SnapshotDB.get_snapshot_by_id demo_store) (Some 1%Z)).
  vm_compute. reflexivity.
Defined.

Lemma handle_export_masks_not_found_witness :
  handle_export (B := demo_builtins) demo_json_loads
    (SnapshotDB.get_snapshot_by_id demo_store) (Some 9%Z)
  = ({| visible := false; value := None |},
     py "Export failed: "
     ++ str_exn
          (OtherException (py "Expecting value: line 1 column 1 (char 0)"))).
Proof.
  apply (handle_export_masks_not_found (B := demo_builtins) demo_json_loads
           (SnapshotDB.get_snapshot_by_id demo_store) 9).
  - discriminate.
  - vm_compute. reflexivity.
  - vm_compute. reflexivity.
Defined.

Lemma load_success_iff_witness :
  take 9 (load_snapshot_by_id (B := demo_builtins)
            (SnapshotDB.get_snapshot_by_id demo_store) (py "abc"))
  = none9.
Proof.
  apply (load_success_iff (B := demo_builtins)
           (SnapshotDB.get_snapshot_by_id demo_store) (py "abc")).
  vm_compute. discriminate.
Defined.

Lemma load_returns_what_save_stored_witness :
  load_snapshot_by_id (B := demo_builtins)
    (λ _, inr (Some (<[py "id" := VInt 1]>
                       (save_args_dict (VStr (py "Sum")) (VStr question_2_plus_2)
                          (VStr demo_system_prompt) (VStr gemini) VNone
                          (VStr (py "4")) (VStr []) (VStr []) (VStr [])
                          (VStr (py "math"))))))
    (py "1")
  = [ VStr (py "Sum"); VStr question_2_plus_2; VStr demo_system_prompt;
      VStr gemini; VNone; VStr (py "4"); VStr []; VStr []; VStr [];
      VStr loaded_message ].
Proof.
  apply (load_returns_what_save_stored (B := demo_builtins) _ (py "1") 1
           (VStr (py "Sum")) (VStr question_2_plus_2) (VStr demo_system_prompt)
           (VStr gemini) VNone (VStr (py "4")) (VStr []) (VStr []) (VStr [])
           (VStr (py "math"))
           (<[py "id" := VInt 1]>
              (save_args_dict (VStr (py "Sum")) (VStr question_2_plus_2)
                 (VStr demo_system_prompt) (VStr gemini) VNone
                 (VStr (py "4")) (VStr []) (VStr []) (VStr [])
                 (VStr (py "math"))))).
  - discriminate.
  - vm_compute. reflexivity.
  - reflexivity.
  - apply insert_subseteq. vm_compute. reflexivity.
Defined.
